(** * Run specifications of the shared-memory benchmarks (bmktest2.py)

    A shallow embedding of [scripts/experimental/lonestarbmk2/bmktest2.py]:
    the descriptor classes derived from [SharedMemApp], the input filter,
    the default run-spec builder with its thread sweep, the per-algorithm
    [get_run_spec] overrides and the [BINARIES] registry.

    Python integers are unbounded, hence [Z].  A [RunSpec] is a mutable
    object of the harness; the builder allocates one per iteration, keeps a
    reference to it in [listOfRunSpecs] and goes on mutating it through
    that reference.  The embedding keeps this: objects live in a store,
    lists hold references, and every method is a computation over the
    store that may raise a Python exception. *)

From Stdlib Require Import ZArith String Ascii List Lia.
From stdpp Require Import base list sorting strings pretty.

Open Scope Z_scope.

(** ** Data model *)

(** The classes of the module that can be instantiated.  [SharedMemApp]
    itself declares neither [relativeAppPath] nor [benchmark]; it only
    carries the behaviour its subclasses inherit. *)
Inductive AppClass : Type :=
  | BarnesHut | BCOuter | BCInner | BFS | DMR
  | GMetis | IndependentSet | MCM | SSSP.

#[global] Instance AppClass_eq_dec : EqDecision AppClass.
Proof. solve_decision. Defined.

Definition all_classes : list AppClass :=
  [BarnesHut; BCOuter; BCInner; BFS; DMR; GMetis; IndependentSet; MCM; SSSP].

(** A descriptor instance: its class and the three sweep attributes, which
    are attributes of [SharedMemApp] that an instance or subclass may
    shadow. *)
Record App : Type := mkApp {
  app_class : AppClass;
  startThread : Z;
  endThread : Z;
  step : Z
}.

(** [C()] for a class [C] of the module: no subclass shadows the sweep
    attributes, so an instance sees [SharedMemApp]'s 80, 80 and 10. *)
Definition instantiate (c : AppClass) : App :=
  {| app_class := c; startThread := 80; endThread := 80; step := 10 |}.

Definition relativeAppPath (self : App) : string :=
  match app_class self with
  | BarnesHut => "barneshut/barneshut"
  | BCOuter => "betweennesscentrality/betweennesscentrality-outer"
  | BCInner => "betweennesscentrality/betweennesscentrality-inner"
  | BFS => "bfs/bfs"
  | DMR => "delaunayrefinement/delaunayrefinement"
  | GMetis => "gmetis/gmetis"
  | IndependentSet => "independentset/independentset"
  | MCM => "matching/bipartite-mcm"
  | SSSP => "sssp/sssp"
  end.

Definition benchmark (self : App) : string :=
  match app_class self with
  | BarnesHut => "barneshut"
  | BCOuter => "bc-outer"
  | BCInner => "bc-inner"
  | BFS => "bfs"
  | DMR => "dmr"
  | GMetis => "gmetis"
  | IndependentSet => "independentset"
  | MCM => "mcm"
  | SSSP => "sssp"
  end.

(** An entry of the input catalogue: [x.name], [x.props.format] and
    [x.props.file]. *)
Record Props : Type := mkProps { format : string; file : string }.
Record Input : Type := mkInput { name : string; props : Props }.

(** The configuration object; only [get_var] is used. *)
Record Config : Type := mkConfig { get_var : string -> string }.

(** Modelled from the spec: the binding modes of [set_arg] in the harness
    module [bmk2], which is not part of the sources at hand.  [AT_PLAIN] is
    the default mode of a bare [set_arg(token)], [AT_INPUT_FILE] the
    bind-as-input-file marker. *)
Inductive ArgType : Type := AT_PLAIN | AT_INPUT_FILE.

#[global] Instance ArgType_eq_dec : EqDecision ArgType.
Proof. solve_decision. Defined.

(** Modelled from the spec: the two policy objects of [bmk2]. *)
Inductive Checker : Type := PassChecker.
Inductive Perf : Type := ZeroPerf.

(** Modelled from the spec: the state of a [bmk2.RunSpec] object, as far
    as the builder sets it. *)
Record RunSpec : Type := mkRunSpec {
  bmk_binary : App;
  bmk_input : Input;
  binary : option string;
  args : list (string * ArgType);
  checker : option Checker;
  perf : option Perf
}.

(** ** Library functions *)

Definition startswith_sep (b : string) : bool :=
  match b with
  | String c _ => if Ascii.eqb c "/" then true else false
  | EmptyString => false
  end.

Fixpoint endswith_sep (a : string) : bool :=
  match a with
  | EmptyString => false
  | String c EmptyString => Ascii.eqb c "/"
  | String _ rest => endswith_sep rest
  end.

(** [os.path.join(a, b)] of [posixpath] for two components. *)
Definition os_path_join (a b : string) : string :=
  if startswith_sep b then b
  else if match a with EmptyString => true | _ => endswith_sep a end
       then a +:+ b
       else a +:+ "/" +:+ b.

(** ["%d" % n]. *)
Definition fmt_d (n : Z) : string := pretty n.

(** Number of elements of [range(start, stop, step)] for a non-zero step,
    as the interpreter computes it. *)
Definition range_len (start stop step : Z) : Z :=
  if 0 <? step
  then (if start <? stop then (stop - start - 1) / step + 1 else 0)
  else (if stop <? start then (start - stop - 1) / (- step) + 1 else 0).

Definition range_list (start stop step : Z) : list Z :=
  (fun i => start + i * step) <$> seqZ 0 (range_len start stop step).

(** ** Computations over the object store *)

Inductive exn : Type := AssertionError | ValueError.

Inductive result (A : Type) : Type :=
  | Ok (a : A)
  | Raise (e : exn).
Arguments Ok {A} a.
Arguments Raise {A} e.

(** A reference is a position in the store. *)
Abbreviation ref := nat (only parsing).
Abbreviation Store := (list RunSpec) (only parsing).
Definition M (A : Type) : Type := Store -> result (A * Store).

Definition ret {A} (a : A) : M A := fun st => Ok (a, st).

Definition bind {A B} (m : M A) (k : A -> M B) : M B :=
  fun st =>
    match m st with
    | Ok (a, st') => k a st'
    | Raise e => Raise e
    end.

Definition raise {A} (e : exn) : M A := fun _ => Raise e.

Declare Scope py_scope.
Delimit Scope py_scope with py.
Notation "x <-- m ;; k" := (bind m (fun x => k))
  (at level 100, m at next level, right associativity) : py_scope.
Notation "m ;;; k" := (bind m (fun _ => k))
  (at level 100, right associativity) : py_scope.
Open Scope py_scope.

(** [range(start, stop, step)]; a zero step is a [ValueError]. *)
Definition range (start stop step : Z) : M (list Z) :=
  if step =? 0 then raise ValueError else ret (range_list start stop step).

(** [for x in xs: acc = body(acc, x)], the loop variable [acc] standing for
    the locals the body rebinds. *)
Fixpoint for_in {A S} (xs : list A) (body : S -> A -> M S) (acc : S) : M S :=
  match xs with
  | [] => ret acc
  | x :: xs' => acc' <-- body acc x ;; for_in xs' body acc'
  end.

(** Allocation of a fresh object, and mutation through a reference.  A
    reference is the position of its object in the store; objects are
    never freed, so a reference handed out by [RunSpec_new] stays valid. *)
Definition RunSpec_new (b : App) (i : Input) : M ref :=
  fun st =>
    Ok (length st,
        st ++ [{| bmk_binary := b; bmk_input := i; binary := None;
                  args := []; checker := None; perf := None |}]).

Definition mutate (x : ref) (f : RunSpec -> RunSpec) : M unit :=
  fun st => Ok (tt, alter f x st).

(** Modelled from the spec: the setters of [bmk2.RunSpec].  [set_binary]
    takes a prefix and a path, and [set_arg] appends one token with its
    binding mode to the ordered argument list. *)
Definition set_binary (x : ref) (prefix path : string) : M unit :=
  mutate x (fun o =>
    {| bmk_binary := bmk_binary o; bmk_input := bmk_input o;
       binary := Some (os_path_join prefix path);
       args := args o; checker := checker o; perf := perf o |}).

Definition add_arg (tok : string) (ty : ArgType) (o : RunSpec) : RunSpec :=
  {| bmk_binary := bmk_binary o; bmk_input := bmk_input o;
     binary := binary o; args := args o ++ [(tok, ty)];
     checker := checker o; perf := perf o |}.

Definition set_arg (x : ref) (tok : string) (ty : ArgType) : M unit :=
  mutate x (add_arg tok ty).

Definition set_checker (x : ref) (c : Checker) : M unit :=
  mutate x (fun o =>
    {| bmk_binary := bmk_binary o; bmk_input := bmk_input o;
       binary := binary o; args := args o;
       checker := Some c; perf := perf o |}).

Definition set_perf (x : ref) (p : Perf) : M unit :=
  mutate x (fun o =>
    {| bmk_binary := bmk_binary o; bmk_input := bmk_input o;
       binary := binary o; args := args o;
       checker := checker o; perf := Some p |}).

(** The objects a list of references denotes in a store. *)
Definition deref (st : Store) (xs : list ref) : list RunSpec :=
  omap (fun x => st !! x) xs.

(** A call from a fresh store, observed through the objects it returns. *)
Definition run (m : M (list ref)) : result (list RunSpec) :=
  match m [] with
  | Ok (xs, st) => Ok (deref st xs)
  | Raise e => Raise e
  end.

(** ** SharedMemApp *)

(** [finput] of [filter_inputs]. *)
Definition finput (x : Input) : bool :=
  if String.eqb (format (props x)) "bin/galois" then true
  else if String.eqb (format (props x)) "mesh" then true
  else if String.eqb (format (props x)) "nothing" then true
  else false.

Definition filter_inputs (inputs : list Input) : list Input :=
  List.filter finput inputs.

(** The base class [GraphBMKSharedMem] of the module [bmkprops], which is
    not part of the sources at hand: its method [getUniqueStatFile] is
    taken as given. *)
Class GraphBMKSharedMem : Type :=
  getUniqueStatFile : App -> Z -> string -> string.

Section SharedMemApp.
Context `{!GraphBMKSharedMem}.

(** The part of the loop body after the zero test: it builds one run
    spec for [numThreads] and appends it to [listOfRunSpecs]. *)
Definition build_spec (self : App) (bmkinput : Input) (config : Config)
    (listOfRunSpecs : list ref) (numThreads : Z) : M (list ref) :=
  x <-- RunSpec_new self bmkinput ;;
  set_binary x "" (os_path_join (get_var config "pathToApps")
                                (relativeAppPath self)) ;;;
  set_arg x ("-t=" +:+ fmt_d numThreads) AT_PLAIN ;;;
  nameToAppend <--
    (if String.eqb (format (props bmkinput)) "nothing" then
       ret "gen"
     else if negb (String.eqb (format (props bmkinput)) "mesh") then
       set_arg x (file (props bmkinput)) AT_INPUT_FILE ;;;
       ret (name bmkinput)
     else
       set_arg x (file (props bmkinput)) AT_PLAIN ;;;
       ret (name bmkinput)) ;;
  set_arg x ("-statFile=" +:+
             os_path_join (get_var config "logOutputDirectory")
                          (getUniqueStatFile self numThreads nameToAppend))
          AT_PLAIN ;;;
  let listOfRunSpecs := listOfRunSpecs ++ [x] in
  set_checker x PassChecker ;;;
  set_perf x ZeroPerf ;;;
  ret listOfRunSpecs.

(** The body of the [for] loop: the zero test rebinds [numThreads] or
    skips the iteration. *)
Definition sweep_body (self : App) (bmkinput : Input) (config : Config)
    (listOfRunSpecs : list ref) (numThreads : Z) : M (list ref) :=
  if (numThreads =? 0) && negb (step self =? 1) then
    build_spec self bmkinput config listOfRunSpecs 1
  else if numThreads =? 0 then
    ret listOfRunSpecs
  else
    build_spec self bmkinput config listOfRunSpecs numThreads.

Definition get_default_run_specs (self : App) (bmkinput : Input)
    (config : option Config) : M (list ref) :=
  match config with
  | None => raise AssertionError
  | Some config =>
      threads <-- range (startThread self) (endThread self + 1) (step self) ;;
      for_in threads (sweep_body self bmkinput config) []
  end.

(** [for s in specs: s.set_arg(t1); ...; s.set_arg(tn)]. *)
Definition set_args_each (specs : list ref) (toks : list string) : M unit :=
  for_in specs
    (fun _ s => for_in toks (fun _ t => set_arg s t AT_PLAIN) tt) tt.

(** Method resolution: four classes override [get_run_spec], the others
    inherit [SharedMemApp.get_run_spec]. *)
Definition get_run_spec (self : App) (bmkinput : Input)
    (config : option Config) : M (list ref) :=
  match app_class self with
  | BarnesHut =>
      specs <-- get_default_run_specs self bmkinput config ;;
      set_args_each specs ["-n=50000"; "-steps=1"; "-seed=0"]%string ;;;
      ret specs
  | GMetis =>
      specs <-- get_default_run_specs self bmkinput config ;;
      set_args_each specs ["256"]%string ;;;
      ret specs
  | MCM =>
      specs <-- get_default_run_specs self bmkinput config ;;
      set_args_each specs
        ["-inputType=generated"; "-n=1000000"; "-numEdges=100000000";
         "-numGroups=10000"; "-seed=0"]%string ;;;
      ret specs
  | SSSP =>
      specs <-- get_default_run_specs self bmkinput config ;;
      set_args_each specs ["-delta=8"]%string ;;;
      ret specs
  | BCOuter | BCInner | BFS | DMR | IndependentSet =>
      get_default_run_specs self bmkinput config
  end.

End SharedMemApp.

(** The registry of the module. *)
Definition BINARIES : list App := [instantiate MCM].

(** ** Views used in the statements *)

(** What the zero test of the loop makes of a value of the range: [None]
    for a skipped iteration, otherwise the thread count used. *)
Definition zero_policy (step v : Z) : option Z :=
  if (v =? 0) && negb (step =? 1) then Some 1
  else if v =? 0 then None
  else Some v.

(** The thread counts a sweep runs with, in iteration order. *)
Definition thread_counts (self : App) : list Z :=
  omap (zero_policy (step self))
       (range_list (startThread self) (endThread self + 1) (step self)).

Definition thread_token (n : Z) : string * ArgType :=
  ("-t=" +:+ fmt_d n, AT_PLAIN).

Definition stat_token `{!GraphBMKSharedMem} (self : App) (config : Config)
    (n : Z) (display : string) : string * ArgType :=
  ("-statFile=" +:+
   os_path_join (get_var config "logOutputDirectory")
                (getUniqueStatFile self n display),
   AT_PLAIN).

(** First and last token of a run spec: in a default run spec these are the
    thread flag and the stat-file flag. *)
Definition thread_arg (x : RunSpec) : option (string * ArgType) :=
  head (args x).
Definition stat_file_arg (x : RunSpec) : option (string * ArgType) :=
  last (args x).

(** The name that enters the stat-file name. *)
Definition display_name (bmkinput : Input) : string :=
  if String.eqb (format (props bmkinput)) "nothing" then "gen"
  else name bmkinput.

(** The tokens bound to the input. *)
Definition input_tokens (bmkinput : Input) : list (string * ArgType) :=
  if String.eqb (format (props bmkinput)) "nothing" then []
  else if String.eqb (format (props bmkinput)) "mesh"
       then [(file (props bmkinput), AT_PLAIN)]
       else [(file (props bmkinput), AT_INPUT_FILE)].

(** The object one iteration leaves in the store. *)
Definition default_spec `{!GraphBMKSharedMem} (self : App) (bmkinput : Input)
    (config : Config) (n : Z) : RunSpec :=
  {| bmk_binary := self; bmk_input := bmkinput;
     binary := Some (os_path_join ""
                 (os_path_join (get_var config "pathToApps")
                               (relativeAppPath self)));
     args := thread_token n :: input_tokens bmkinput ++
             [stat_token self config n (display_name bmkinput)];
     checker := Some PassChecker; perf := Some ZeroPerf |}.

(** A run spec after [set_arg(t)] for each [t] of [toks]. *)
Definition append_tokens (toks : list string) (x : RunSpec) : RunSpec :=
  fold_left (fun o t => add_arg t AT_PLAIN o) toks x.

(** The per-algorithm table of the specification: the tokens an algorithm
    adds to every default run spec. *)
Definition appended_tokens (c : AppClass) : list string :=
  match c with
  | BarnesHut => ["-n=50000"; "-steps=1"; "-seed=0"]
  | GMetis => ["256"]
  | MCM => ["-inputType=generated"; "-n=1000000"; "-numEdges=100000000";
            "-numGroups=10000"; "-seed=0"]
  | SSSP => ["-delta=8"]
  | BCOuter | BCInner | BFS | DMR | IndependentSet => []
  end%string.

(** The directory of a [relativeAppPath]: the algorithm a class belongs
    to. *)
Fixpoint dirname (p : string) : string :=
  match p with
  | EmptyString => EmptyString
  | String c rest =>
      if Ascii.eqb c "/" then EmptyString else String c (dirname rest)
  end.

(** ** Sample collaborators, for evaluating the builder *)

(** A stat-file generator that combines benchmark, thread count and
    display name. *)
Definition sample_stat_file : GraphBMKSharedMem :=
  fun self n display =>
    (benchmark self +:+ "_" +:+ fmt_d n +:+ "_" +:+ display +:+ ".log")%string.

(** A generator that ignores the thread count. *)
Definition constant_stat_file : GraphBMKSharedMem :=
  fun self _ display => (benchmark self +:+ "_" +:+ display +:+ ".log")%string.

(** A generator that yields an absolute name for one thread count and
    relative names for the others. *)
Definition absolute_stat_file : GraphBMKSharedMem :=
  fun self n display =>
    if n =? 1 then "/logs/2.log"%string else (fmt_d n +:+ ".log")%string.

Definition sample_config : Config :=
  {| get_var := fun k =>
       if String.eqb k "pathToApps" then "/opt/apps"
       else if String.eqb k "logOutputDirectory" then "/logs"
       else ""%string |}.

Definition galaxy1 : Input :=
  {| name := "galaxy1";
     props := {| format := "bin/galois"; file := "/data/galaxy1.gr" |} |}.

Definition generated : Input :=
  {| name := "rmat"; props := {| format := "nothing"; file := "" |} |}.

Definition mesh250k : Input :=
  {| name := "r250k"; props := {| format := "mesh"; file := "/data/r250k" |} |}.

Definition edgelist : Input :=
  {| name := "web";
     props := {| format := "text/edgelist"; file := "/data/web.el" |} |}.

(** ** Evaluation on concrete inputs *)

Example range_up : range_list 1 (8 + 1) 3 = [1; 4; 7].
Proof. reflexivity. Qed.

Example range_down : range_list 4 (1 + 1) (-1) = [4; 3].
Proof. reflexivity. Qed.

Example range_empty : range_list 5 (3 + 1) 1 = [].
Proof. reflexivity. Qed.

Example join_relative : os_path_join "/logs" "a.log" = "/logs/a.log"%string.
Proof. reflexivity. Qed.

Example join_absolute : os_path_join "/logs" "/tmp/a.log" = "/tmp/a.log"%string.
Proof. reflexivity. Qed.

Example join_trailing_sep : os_path_join "/logs/" "a.log" = "/logs/a.log"%string.
Proof. reflexivity. Qed.

(** The first end-to-end example of the specification. *)
Example barneshut_galaxy1 :
  map (fun x => (binary x, args x)) <$>
    match run (get_run_spec (H := sample_stat_file) (instantiate BarnesHut)
                            galaxy1 (Some sample_config)) with
    | Ok specs => Some specs
    | Raise _ => None
    end
  = Some [(Some "/opt/apps/barneshut/barneshut",
           [("-t=80", AT_PLAIN); ("/data/galaxy1.gr", AT_INPUT_FILE);
            ("-statFile=/logs/barneshut_80_galaxy1.log", AT_PLAIN);
            ("-n=50000", AT_PLAIN); ("-steps=1", AT_PLAIN);
            ("-seed=0", AT_PLAIN)])]%string.
Proof. vm_compute. reflexivity. Qed.

(** The second one. *)
Example mcm_generated :
  map args <$>
    match run (get_run_spec (H := sample_stat_file) (instantiate MCM)
                            generated (Some sample_config)) with
    | Ok specs => Some specs
    | Raise _ => None
    end
  = Some [[("-t=80", AT_PLAIN);
           ("-statFile=/logs/mcm_80_gen.log", AT_PLAIN);
           ("-inputType=generated", AT_PLAIN); ("-n=1000000", AT_PLAIN);
           ("-numEdges=100000000", AT_PLAIN); ("-numGroups=10000", AT_PLAIN);
           ("-seed=0", AT_PLAIN)]]%string.
Proof. vm_compute. reflexivity. Qed.

(** ** The store discipline of the builder *)

Lemma alter_fresh (f : RunSpec -> RunSpec) (st : Store) (o : RunSpec) :
  alter f (length st) (st ++ [o]) = st ++ [f o].
Proof.
  replace (length st) with (length st + 0)%nat by lia.
  by rewrite alter_app_r.
Qed.

Lemma alter_head_of_new (f : RunSpec -> RunSpec) (st new : Store) (o : RunSpec) :
  alter f (length st) (st ++ o :: new) = st ++ f o :: new.
Proof.
  replace (length st) with (length st + 0)%nat by lia.
  by rewrite alter_app_r.
Qed.

(** The references to a block of the store denote its objects. *)
Lemma deref_block (st new rest : Store) :
  deref (st ++ new ++ rest) (seq (length st) (length new)) = new.
Proof.
  revert st. induction new as [|o new IH]; intros st; [done|].
  cbn [length seq]. unfold deref in *. cbn [omap list_omap].
  rewrite lookup_app_r by lia. rewrite Nat.sub_diag. cbn [lookup list_lookup].
  f_equal. specialize (IH (st ++ [o])).
  rewrite length_app, <- app_assoc in IH. cbn in IH.
  by rewrite Nat.add_1_r in IH.
Qed.

Lemma deref_new (st new : Store) :
  deref (st ++ new) (seq (length st) (length new)) = new.
Proof. rewrite <- (deref_block st new []) at 3. by rewrite app_nil_r. Qed.

Lemma deref_fresh (new : Store) (k : nat) :
  length new = k -> deref new (seq 0 k) = new.
Proof. intros <-. apply (deref_new []). Qed.

Section Builder.
Context `{!GraphBMKSharedMem}.

(** One iteration allocates one object after the existing ones, leaves
    these alone and appends the new reference. *)
Lemma build_spec_exec self bmkinput config acc n (st : Store) :
  build_spec self bmkinput config acc n st
  = Ok (acc ++ [length st], st ++ [default_spec self bmkinput config n]).
Proof.
  unfold build_spec, bind, RunSpec_new, set_binary, set_arg, set_checker,
    set_perf, mutate, ret, default_spec, display_name, input_tokens.
  destruct (String.eqb (format (props bmkinput)) "nothing");
    [|destruct (String.eqb (format (props bmkinput)) "mesh")];
    cbn [negb]; rewrite ?alter_fresh; reflexivity.
Qed.

Lemma sweep_body_exec self bmkinput config acc v (st : Store) :
  sweep_body self bmkinput config acc v st
  = match zero_policy (step self) v with
    | Some n => Ok (acc ++ [length st],
                    st ++ [default_spec self bmkinput config n])
    | None => Ok (acc, st)
    end.
Proof.
  unfold sweep_body, zero_policy.
  destruct ((v =? 0) && negb (step self =? 1)); [apply build_spec_exec|].
  destruct (v =? 0); [done|apply build_spec_exec].
Qed.

Lemma sweep_exec self bmkinput config vs acc (st : Store) :
  for_in vs (sweep_body self bmkinput config) acc st
  = Ok (acc ++ seq (length st) (length (omap (zero_policy (step self)) vs)),
        st ++ (default_spec self bmkinput config
                 <$> omap (zero_policy (step self)) vs)).
Proof.
  revert acc st. induction vs as [|v vs IH]; intros acc st.
  - cbn. by rewrite !app_nil_r.
  - cbn [for_in omap list_omap]. unfold bind at 1. rewrite sweep_body_exec.
    destruct (zero_policy (step self) v) as [n|]; rewrite IH; [|done].
    cbn [length seq fmap list_fmap]. rewrite length_app, <- !app_assoc.
    cbn [length app]. by rewrite Nat.add_1_r.
Qed.

(** The builder, run in any store. *)
Lemma get_default_run_specs_exec self bmkinput config (st : Store) :
  get_default_run_specs self bmkinput config st
  = match config with
    | None => Raise AssertionError
    | Some cfg =>
        if step self =? 0 then Raise ValueError
        else Ok (seq (length st) (length (thread_counts self)),
                 st ++ (default_spec self bmkinput cfg <$> thread_counts self))
    end.
Proof.
  destruct config as [cfg|]; [|done].
  unfold get_default_run_specs, bind, range, thread_counts.
  destruct (step self =? 0); [done|]. cbn. by rewrite sweep_exec.
Qed.

Lemma set_tokens_exec (s : ref) (toks : list string) (st : Store) :
  for_in toks (fun _ t => set_arg s t AT_PLAIN) tt st
  = Ok (tt, alter (append_tokens toks) s st).
Proof.
  revert st. induction toks as [|t toks IH]; intros st; cbn.
  - unfold ret. f_equal. f_equal. symmetry. apply list_alter_id. done.
  - unfold bind, set_arg, mutate. rewrite IH. by rewrite list_alter_alter_eq.
Qed.

Lemma set_args_each_exec (toks : list string) (new st : Store) (k : nat) :
  length new = k ->
  set_args_each (seq (length st) k) toks (st ++ new)
  = Ok (tt, st ++ (append_tokens toks <$> new)).
Proof.
  intros <-. unfold set_args_each.
  revert st. induction new as [|o new IH]; intros st; [done|].
  cbn [length seq for_in]. unfold bind at 1. rewrite set_tokens_exec.
  rewrite alter_head_of_new.
  specialize (IH (st ++ [append_tokens toks o])).
  rewrite length_app, <- app_assoc in IH. cbn in IH.
  rewrite Nat.add_1_r in IH. rewrite IH. by rewrite <- app_assoc.
Qed.

(** [get_run_spec], run in any store. *)
Lemma get_run_spec_exec self bmkinput config (st : Store) :
  get_run_spec self bmkinput config st
  = match config with
    | None => Raise AssertionError
    | Some cfg =>
        if step self =? 0 then Raise ValueError
        else Ok (seq (length st) (length (thread_counts self)),
                 st ++ (append_tokens (appended_tokens (app_class self))
                          <$> (default_spec self bmkinput cfg
                                 <$> thread_counts self)))
    end.
Proof.
  assert (Hover : forall toks,
    (specs <-- get_default_run_specs self bmkinput config ;;
     set_args_each specs toks ;;; ret specs) st
    = match config with
      | None => Raise AssertionError
      | Some cfg =>
          if step self =? 0 then Raise ValueError
          else Ok (seq (length st) (length (thread_counts self)),
                   st ++ (append_tokens toks
                            <$> (default_spec self bmkinput cfg
                                   <$> thread_counts self)))
      end).
  { intros toks. unfold bind at 1. rewrite get_default_run_specs_exec.
    destruct config as [cfg|]; [|done]. destruct (step self =? 0); [done|].
    unfold bind. by rewrite set_args_each_exec by apply length_fmap. }
  unfold get_run_spec.
  destruct (app_class self); cbn [appended_tokens]; try apply Hover.
  all: rewrite get_default_run_specs_exec;
    destruct config as [cfg|]; [|done]; destruct (step self =? 0); [done|];
    do 2 f_equal; f_equal; symmetry; apply list_fmap_id.
Qed.

Lemma run_get_default_run_specs self bmkinput config :
  run (get_default_run_specs self bmkinput config)
  = match config with
    | None => Raise AssertionError
    | Some cfg =>
        if step self =? 0 then Raise ValueError
        else Ok (default_spec self bmkinput cfg <$> thread_counts self)
    end.
Proof.
  unfold run. rewrite get_default_run_specs_exec.
  destruct config as [cfg|]; [|done]. destruct (step self =? 0); [done|].
  f_equal. apply deref_fresh. apply length_fmap.
Qed.

Lemma run_get_run_spec self bmkinput config :
  run (get_run_spec self bmkinput config)
  = match config with
    | None => Raise AssertionError
    | Some cfg =>
        if step self =? 0 then Raise ValueError
        else Ok (append_tokens (appended_tokens (app_class self))
                   <$> (default_spec self bmkinput cfg <$> thread_counts self))
    end.
Proof.
  unfold run. rewrite get_run_spec_exec.
  destruct config as [cfg|]; [|done]. destruct (step self =? 0); [done|].
  f_equal. apply deref_fresh. by rewrite !length_fmap.
Qed.

End Builder.

(** ** The thread sweep *)

Lemma div_bound (a b i : Z) : 0 < b -> (i < a / b + 1 <-> i * b <= a).
Proof.
  intros Hb. split; intros Hi.
  - pose proof (Z.mul_div_le a b Hb). nia.
  - assert (i <= a / b); [|lia].
    apply Z.div_le_lower_bound; lia.
Qed.

Lemma range_len_up (start stop step i : Z) :
  0 < step -> 0 <= i ->
  (i < range_len start stop step <-> start + i * step < stop).
Proof.
  intros Hs Hi. unfold range_len.
  destruct (Z.ltb_spec 0 step); [|lia].
  destruct (Z.ltb_spec start stop).
  - rewrite div_bound by done. lia.
  - nia.
Qed.

Lemma range_len_down (start stop step i : Z) :
  step < 0 -> 0 <= i ->
  (i < range_len start stop step <-> stop < start + i * step).
Proof.
  intros Hs Hi. unfold range_len.
  destruct (Z.ltb_spec 0 step); [lia|].
  destruct (Z.ltb_spec stop start).
  - rewrite div_bound by lia. nia.
  - nia.
Qed.

Lemma elem_of_range_list (v start stop step : Z) :
  v ∈ range_list start stop step
  <-> exists i, 0 <= i < range_len start stop step /\ v = start + i * step.
Proof.
  unfold range_list. rewrite list_elem_of_fmap.
  split; intros (i & H1 & H2).
  - exists i. apply elem_of_seqZ in H2. split; [lia|done].
  - exists i. split; [done|]. apply elem_of_seqZ. lia.
Qed.

(** For a positive step the range holds the values of the closed interval
    from [start] to [stop - 1] that lie a multiple of [step] above
    [start]. *)
Lemma elem_of_range_list_up (v start stop step : Z) :
  0 < step ->
  v ∈ range_list start stop step
  <-> start <= v < stop /\ (step | v - start).
Proof.
  intros Hs. rewrite elem_of_range_list. split.
  - intros (i & [Hi1 Hi2] & ->). apply range_len_up in Hi2; [|done..].
    split; [nia|]. exists i. lia.
  - intros ([Hv1 Hv2] & i & Hi). exists i.
    assert (0 <= i) by nia. split; [|lia].
    split; [done|]. apply range_len_up; [done..|]. lia.
Qed.

Lemma seqZ_increasing (m n : Z) : StronglySorted Z.lt (seqZ m n).
Proof.
  unfold seqZ. generalize (Z.to_nat n) as k. intros k. generalize 0%nat as j.
  induction k as [|k IH]; intros j; cbn; constructor; [apply IH|].
  apply Forall_forall. intros x Hx.
  apply list_elem_of_fmap in Hx as (i & -> & Hi).
  apply elem_of_seq in Hi. lia.
Qed.

Lemma range_list_increasing (start stop step : Z) :
  0 < step -> StronglySorted Z.lt (range_list start stop step).
Proof.
  intros Hs. unfold range_list.
  apply StronglySorted_fmap with (R1 := Z.lt); [|apply seqZ_increasing].
  intros x y Hxy. nia.
Qed.

Lemma range_list_NoDup (start stop step : Z) :
  step <> 0 -> NoDup (range_list start stop step).
Proof.
  intros Hs. unfold range_list.
  apply NoDup_fmap_2_strong; [|apply NoDup_seqZ].
  intros x y _ _ Heq. nia.
Qed.

Lemma omap_increasing {A B} (R : relation A) (R' : relation B)
    (f : A -> option B) (l : list A) :
  (forall x y x' y', x ∈ l -> y ∈ l -> R x y ->
     f x = Some x' -> f y = Some y' -> R' x' y') ->
  StronglySorted R l -> StronglySorted R' (omap f l).
Proof.
  intros Hf Hl. induction Hl as [|x l Hl IH Hx]; cbn; [constructor|].
  assert (IH' : StronglySorted R' (omap f l)).
  { apply IH. intros. eapply Hf; eauto; by right. }
  destruct (f x) as [x'|] eqn:Hfx; [|done].
  constructor; [done|]. apply Forall_forall. intros y' Hy'.
  apply list_elem_of_omap in Hy' as (y & Hy & Hfy).
  eapply (Hf x y); eauto; [by left|by right|].
  rewrite Forall_forall in Hx. by apply Hx.
Qed.

Lemma omap_NoDup {A B} (f : A -> option B) (l : list A) :
  (forall x y z, x ∈ l -> y ∈ l -> f x = Some z -> f y = Some z -> x = y) ->
  NoDup l -> NoDup (omap f l).
Proof.
  intros Hf Hl. induction Hl as [|x l Hx Hl IH]; cbn; [constructor|].
  assert (IH' : NoDup (omap f l)).
  { apply IH. intros. eapply Hf; eauto; by right. }
  destruct (f x) as [z|] eqn:Hfx; [|done].
  constructor; [|done]. intros (y & Hy & Hfy)%list_elem_of_omap.
  apply Hx. replace x with y; [done|].
  symmetry. eapply Hf; eauto; [by left|by right].
Qed.

(** With a positive step the thread counts go strictly up, the zero test
    included: a replaced 0 has only negative values before it and values
    of at least [step] after it. *)
Lemma thread_counts_increasing (self : App) :
  0 < step self -> StronglySorted Z.lt (thread_counts self).
Proof.
  intros Hs. unfold thread_counts.
  apply omap_increasing with (R := Z.lt);
    [|by apply range_list_increasing].
  intros x y x' y' Hx Hy Hxy Hfx Hfy.
  apply elem_of_range_list_up in Hx as [_ [i Hi]]; [|done].
  apply elem_of_range_list_up in Hy as [_ [j Hj]]; [|done].
  unfold zero_policy in *.
  destruct (Z.eqb_spec x 0), (Z.eqb_spec y 0), (Z.eqb_spec (step self) 1);
    simplify_eq/=; try lia.
  assert (Hd : y' = (j - i) * step self) by lia.
  assert (1 <= j - i) by nia. nia.
Qed.

(** Only a descending sweep of step -1 through 1 and 0 meets a thread
    count twice. *)
Lemma thread_counts_NoDup (self : App) :
  step self <> 0 ->
  ~ (step self = -1 /\ 1 <= startThread self /\ endThread self <= -2) ->
  NoDup (thread_counts self).
Proof.
  intros Hs Hbad. unfold thread_counts.
  apply omap_NoDup; [|by apply range_list_NoDup].
  intros x y z Hx Hy Hfx Hfy.
  apply elem_of_range_list in Hx as (i & [Hi1 Hi2] & Hxi).
  apply elem_of_range_list in Hy as (j & [Hj1 Hj2] & Hyj).
  unfold zero_policy in *.
  destruct (Z.eqb_spec x 0), (Z.eqb_spec y 0), (Z.eqb_spec (step self) 1);
    simplify_eq/=; try lia.
  - assert (Hd : step self * (j - i) = 1) by lia.
    apply Z.mul_eq_1 in Hd as [?| Hd]; [done|].
    apply range_len_down in Hi2, Hj2; [|lia..]. exfalso. apply Hbad. lia.
  - assert (Hd : step self * (i - j) = 1) by lia.
    apply Z.mul_eq_1 in Hd as [?| Hd]; [done|].
    apply range_len_down in Hi2, Hj2; [|lia..]. exfalso. apply Hbad. lia.
Qed.

(** ** The input filter *)

Lemma finput_accepts (x : Input) :
  finput x = true
  <-> format (props x) ∈ ["bin/galois"; "mesh"; "nothing"]%string.
Proof.
  unfold finput. rewrite !elem_of_cons, elem_of_nil.
  destruct (String.eqb_spec (format (props x)) "bin/galois"); [tauto|].
  destruct (String.eqb_spec (format (props x)) "mesh"); [tauto|].
  destruct (String.eqb_spec (format (props x)) "nothing"); [tauto|].
  split; [done|tauto].
Qed.

Lemma filter_inputs_sublist (inputs : list Input) :
  filter_inputs inputs `sublist_of` inputs.
Proof.
  induction inputs as [|x inputs IH]; cbn; [constructor|].
  destruct (finput x); by constructor.
Qed.

Lemma filter_inputs_greatest (k inputs : list Input) :
  k `sublist_of` inputs ->
  Forall (fun x => finput x = true) k ->
  k `sublist_of` filter_inputs inputs.
Proof.
  induction 1 as [|x k inputs Hsub IH|x k inputs Hsub IH]; intros Hk; cbn.
  - constructor.
  - apply Forall_cons in Hk as [-> Hk]. constructor. by apply IH.
  - destruct (finput x); [constructor|]; by apply IH.
Qed.

(** C4: [filter_inputs] keeps exactly the items whose format tag is one of
    "bin/galois", "mesh" and "nothing", and drops the others; the items
    kept stand in their original order, each as often as before: the
    result is a subsequence of the input and every subsequence of accepted
    items is a subsequence of it.  It is a function of its argument alone
    and is defined on every list; the empty list, and a list with no
    accepted item, give the empty list. *)
Theorem filter_inputs_keeps_accepted (inputs : list Input) :
  (forall x, x ∈ filter_inputs inputs
     <-> x ∈ inputs
         /\ format (props x) ∈ ["bin/galois"; "mesh"; "nothing"]%string)
  /\ filter_inputs inputs `sublist_of` inputs
  /\ (forall k, k `sublist_of` inputs ->
        Forall (fun x => format (props x)
                           ∈ ["bin/galois"; "mesh"; "nothing"]%string) k ->
        k `sublist_of` filter_inputs inputs)
  /\ filter_inputs [] = []
  /\ (Forall (fun x => format (props x)
                         ∉ ["bin/galois"; "mesh"; "nothing"]%string) inputs ->
      filter_inputs inputs = []).
Proof.
  split_and!.
  - intros x. unfold filter_inputs.
    rewrite <- finput_accepts, !list_elem_of_In. apply filter_In.
  - apply filter_inputs_sublist.
  - intros k Hsub Hk. apply filter_inputs_greatest; [done|].
    eapply Forall_impl; [exact Hk|]. intros x. apply finput_accepts.
  - done.
  - induction 1 as [|x inputs Hx _ IH]; [done|]. cbn.
    destruct (finput x) eqn:Hf; [|done].
    by apply finput_accepts in Hf.
Qed.

(** ** The registry *)

(** C10: the registry [BINARIES] holds one descriptor, an instance of the
    bipartite-matching class [MCM]; the module defines nine descriptor
    classes for eight algorithms (the two betweenness-centrality variants
    share one), and no class other than [MCM] has an instance in the
    registry. *)
Theorem BINARIES_only_MCM :
  length BINARIES = 1%nat
  /\ (forall b, b ∈ BINARIES -> app_class b = MCM)
  /\ (exists b, b ∈ BINARIES /\ app_class b = MCM)
  /\ (forall c, c <> MCM -> forall b, b ∈ BINARIES -> app_class b <> c)
  /\ (forall c : AppClass, c ∈ all_classes)
  /\ NoDup all_classes
  /\ length all_classes = 9%nat
  /\ length (remove_dups
               ((fun c => dirname (relativeAppPath (instantiate c)))
                  <$> all_classes)) = 8%nat.
Proof.
  unfold BINARIES. split_and!.
  - done.
  - by intros b ->%list_elem_of_singleton.
  - exists (instantiate MCM). split; [by apply list_elem_of_singleton|done].
  - intros c Hc b ->%list_elem_of_singleton. cbn. congruence.
  - intros c. apply (bool_decide_unpack _). by destruct c; vm_compute.
  - apply (bool_decide_unpack _). by vm_compute.
  - done.
  - by vm_compute.
Qed.

(** ** Path joining *)

(** For a fixed first component, joining is injective on relative second
    components. *)
Lemma os_path_join_relative_inj (a b1 b2 : string) :
  startswith_sep b1 = false -> startswith_sep b2 = false ->
  os_path_join a b1 = os_path_join a b2 -> b1 = b2.
Proof.
  unfold os_path_join. intros -> ->.
  destruct (match a with EmptyString => true | _ => endswith_sep a end);
    intros Heq.
  - by apply (inj (String.append a)) in Heq.
  - apply (inj (String.append a)) in Heq.
    by apply (inj (String.append "/")) in Heq.
Qed.

(** ** Per-algorithm arguments *)

(** [append_tokens] touches the argument list only, at its end. *)
Lemma append_tokens_fields (toks : list string) (x : RunSpec) :
  args (append_tokens toks x) = args x ++ ((fun t => (t, AT_PLAIN)) <$> toks)
  /\ binary (append_tokens toks x) = binary x
  /\ checker (append_tokens toks x) = checker x
  /\ perf (append_tokens toks x) = perf x
  /\ bmk_binary (append_tokens toks x) = bmk_binary x
  /\ bmk_input (append_tokens toks x) = bmk_input x.
Proof.
  unfold append_tokens. revert x.
  induction toks as [|t toks IH]; intros x; cbn.
  - by rewrite app_nil_r.
  - destruct (IH (add_arg t AT_PLAIN x)) as (-> & -> & -> & -> & -> & ->).
    cbn. by rewrite <- app_assoc.
Qed.

Section Claims.
Context `{!GraphBMKSharedMem}.

(** C3: for every descriptor, input and configuration, [get_run_spec]
    returns the run specs of the default builder, each with the tokens of
    its algorithm added after the arguments already set, in order and as
    plain tokens, nothing else changed: "-n=50000", "-steps=1", "-seed=0"
    for BarnesHut; "256" for GMetis; "-inputType=generated", "-n=1000000",
    "-numEdges=100000000", "-numGroups=10000", "-seed=0" for MCM;
    "-delta=8" for SSSP.  For BCOuter, BCInner, BFS, DMR and
    IndependentSet it is the default builder itself.  An exception of the
    default builder is passed on. *)
Theorem get_run_spec_appends_tokens (self : App) (bmkinput : Input)
    (config : option Config) :
  run (get_run_spec self bmkinput config)
  = match run (get_default_run_specs self bmkinput config) with
    | Ok specs =>
        Ok (append_tokens (appended_tokens (app_class self)) <$> specs)
    | Raise e => Raise e
    end
  /\ (forall x toks,
        args (append_tokens toks x)
        = args x ++ ((fun t => (t, AT_PLAIN)) <$> toks)
        /\ binary (append_tokens toks x) = binary x
        /\ checker (append_tokens toks x) = checker x
        /\ perf (append_tokens toks x) = perf x
        /\ bmk_binary (append_tokens toks x) = bmk_binary x
        /\ bmk_input (append_tokens toks x) = bmk_input x)
  /\ appended_tokens BarnesHut = ["-n=50000"; "-steps=1"; "-seed=0"]%string
  /\ appended_tokens GMetis = ["256"]%string
  /\ appended_tokens MCM
     = ["-inputType=generated"; "-n=1000000"; "-numEdges=100000000";
        "-numGroups=10000"; "-seed=0"]%string
  /\ appended_tokens SSSP = ["-delta=8"]%string
  /\ (app_class self ∈ [BCOuter; BCInner; BFS; DMR; IndependentSet] ->
      get_run_spec self bmkinput config
      = get_default_run_specs self bmkinput config).
Proof.
  split_and!; try done.
  - rewrite run_get_run_spec, run_get_default_run_specs.
    destruct config as [cfg|]; [|done]. by destruct (step self =? 0).
  - intros x toks. apply append_tokens_fields.
  - unfold get_run_spec. intros Hc.
    destruct (app_class self); try done;
      by repeat (apply elem_of_cons in Hc as [?|Hc]; [done|]);
         apply elem_of_nil in Hc.
Qed.

(** ** Independence of the store *)

(** X16: the builders do not depend on the object store they run in.
    Run in any store, a call of [get_default_run_specs] or [get_run_spec]
    leaves every object already there as it is, allocates behind them the
    objects it would allocate in the empty store and returns the
    references to these, or raises the same exception; so two calls in a
    row with the same arguments return run specs that are equal, and the
    second call does not touch those of the first. *)
Theorem builders_independent_of_store (self : App) (bmkinput : Input)
    (config : option Config) (st : list RunSpec) :
  get_default_run_specs self bmkinput config st
  = match get_default_run_specs self bmkinput config [] with
    | Ok (xs, new) => Ok (Nat.add (length st) <$> xs, st ++ new)
    | Raise e => Raise e
    end
  /\ get_run_spec self bmkinput config st
     = match get_run_spec self bmkinput config [] with
       | Ok (xs, new) => Ok (Nat.add (length st) <$> xs, st ++ new)
       | Raise e => Raise e
       end
  /\ match (xs <-- get_run_spec self bmkinput config ;;
            ys <-- get_run_spec self bmkinput config ;;
            ret (xs, ys)) st with
     | Ok ((xs, ys), st') =>
         run (get_run_spec self bmkinput config) = Ok (deref st' xs)
         /\ deref st' ys = deref st' xs
         /\ take (length st) st' = st
     | Raise e => run (get_run_spec self bmkinput config) = Raise e
     end.
Proof.
  split_and!.
  - rewrite !get_default_run_specs_exec.
    destruct config as [cfg|]; [|done]. destruct (step self =? 0); [done|].
    cbn [length app]. by rewrite fmap_add_seq, Nat.add_0_r.
  - rewrite !get_run_spec_exec.
    destruct config as [cfg|]; [|done]. destruct (step self =? 0); [done|].
    cbn [length app]. by rewrite fmap_add_seq, Nat.add_0_r.
  - unfold bind. rewrite run_get_run_spec, get_run_spec_exec.
    destruct config as [cfg|]; [|done].
    destruct (step self =? 0) eqn:Hstep; [done|].
    rewrite get_run_spec_exec, Hstep. unfold ret.
    set (new := append_tokens (appended_tokens (app_class self))
                  <$> (default_spec self bmkinput cfg <$> thread_counts self)).
    assert (Hlen : length new = length (thread_counts self)).
    { unfold new. by rewrite !length_fmap. }
    rewrite <- Hlen.
    assert (Hxs : deref ((st ++ new) ++ new) (seq (length st) (length new))
                  = new).
    { rewrite <- app_assoc. apply deref_block. }
    split_and!.
    + by rewrite Hxs.
    + rewrite Hxs. apply deref_new.
    + rewrite <- app_assoc. by rewrite take_app_length.
Qed.

(** ** Input binding *)

(** C1: for every input and every configuration present, and every
    descriptor with a non-zero [step], every run spec of the default
    builder binds the input by its format tag.  For
    "nothing" the arguments are the thread flag and the stat-file flag
    only, and the stat-file name is generated from the name "gen" whatever
    the input is called; for "mesh" the file path stands between the two
    as a plain token; for any other tag, "bin/galois" among them, it
    stands there tagged as input file.  (With a zero [step] the builder
    raises before it produces any run spec.) *)
Theorem default_specs_bind_by_format (self : App) (bmkinput : Input)
    (config : Config) :
  step self <> 0 ->
  exists specs,
    run (get_default_run_specs self bmkinput (Some config)) = Ok specs
    /\ Forall2 (fun n x =>
         (format (props bmkinput) = "nothing"%string ->
          args x = [thread_token n; stat_token self config n "gen"])
         /\ (format (props bmkinput) = "mesh"%string ->
             args x = [thread_token n;
                       (file (props bmkinput), AT_PLAIN);
                       stat_token self config n (name bmkinput)])
         /\ (format (props bmkinput) <> "nothing"%string ->
             format (props bmkinput) <> "mesh"%string ->
             args x = [thread_token n;
                       (file (props bmkinput), AT_INPUT_FILE);
                       stat_token self config n (name bmkinput)]))
       (thread_counts self) specs.
Proof.
  intros Hstep%Z.eqb_neq. eexists. split.
  - by rewrite run_get_default_run_specs, Hstep.
  - apply Forall2_fmap_r, Forall_Forall2_diag, Forall_forall. intros n _.
    unfold default_spec, input_tokens, display_name. cbn [args].
    destruct (String.eqb_spec (format (props bmkinput)) "nothing") as [E1|E1];
      [|destruct (String.eqb_spec (format (props bmkinput)) "mesh")
          as [E2|E2]]; split_and!; intros; try done.
    exfalso. congruence.
Qed.

(** C9: the default builder does not look at whether the input filter
    accepts a format.  For every input whose format tag is neither
    "nothing" nor "mesh", accepted by [filter_inputs] or not, and every
    descriptor with a non-zero [step], every run spec carries the file
    path tagged as input file, and the arguments are those built for the
    same input with the tag "bin/galois". *)
Theorem default_specs_bind_unfiltered (self : App) (bmkinput : Input)
    (config : Config) :
  format (props bmkinput) <> "nothing"%string ->
  format (props bmkinput) <> "mesh"%string ->
  step self <> 0 ->
  let as_galois :=
    {| name := name bmkinput;
       props := {| format := "bin/galois"; file := file (props bmkinput) |} |}
  in
  exists specs specs',
    run (get_default_run_specs self bmkinput (Some config)) = Ok specs
    /\ run (get_default_run_specs self as_galois (Some config)) = Ok specs'
    /\ args <$> specs = args <$> specs'
    /\ Forall2 (fun n x =>
         args x = [thread_token n;
                   (file (props bmkinput), AT_INPUT_FILE);
                   stat_token self config n (name bmkinput)])
       (thread_counts self) specs.
Proof.
  intros E1%String.eqb_neq E2%String.eqb_neq Hstep%Z.eqb_neq as_galois.
  do 2 eexists. rewrite !run_get_default_run_specs, Hstep.
  split_and!; [done..| |].
  - rewrite <- !list_fmap_compose. apply list_fmap_ext. intros _ n _.
    cbn. unfold input_tokens, display_name. cbn. by rewrite E1, E2.
  - apply Forall2_fmap_r, Forall_Forall2_diag, Forall_forall. intros n _.
    unfold default_spec, input_tokens, display_name. cbn [args].
    by rewrite E1, E2.
Qed.

(** ** The sweep of the default builder *)

Lemma thread_args_of_default_specs (self : App) (bmkinput : Input)
    (config : Config) (ns : list Z) :
  thread_arg <$> (default_spec self bmkinput config <$> ns)
  = (fun n => Some (thread_token n)) <$> ns.
Proof. rewrite <- list_fmap_compose. by apply list_fmap_ext. Qed.

(** C2, as amended: with a positive [step] the default builder runs through the values
    [startThread], [startThread + step], ... up to and including
    [endThread], in this order; a value 0 is replaced by 1 when [step] is
    not 1 and left out when [step] is 1; every value that remains gives one
    run spec whose thread flag is "-t=" followed by it.  With
    [startThread = endThread = 80] and [step = 10] there is one run spec,
    with "-t=80". *)
Theorem default_specs_sweep (self : App) (bmkinput : Input) (config : Config) :
  0 < step self ->
  exists vs specs,
    StronglySorted Z.lt vs
    /\ (forall v, v ∈ vs
          <-> startThread self <= v <= endThread self
              /\ (step self | v - startThread self))
    /\ run (get_default_run_specs self bmkinput (Some config)) = Ok specs
    /\ thread_arg <$> specs
       = (fun n => Some (thread_token n))
           <$> omap (fun v => if decide (v = 0)
                              then (if decide (step self = 1)
                                    then None else Some 1)
                              else Some v) vs
    /\ (startThread self = 80 -> endThread self = 80 -> step self = 10 ->
        exists x, specs = [x] /\ thread_arg x = Some ("-t=80"%string, AT_PLAIN)).
Proof.
  intros Hs.
  exists (range_list (startThread self) (endThread self + 1) (step self)).
  eexists. split_and!.
  - by apply range_list_increasing.
  - intros v. rewrite elem_of_range_list_up by done. intuition lia.
  - rewrite run_get_default_run_specs.
    destruct (Z.eqb_spec (step self) 0); [lia|done].
  - rewrite thread_args_of_default_specs. f_equal. unfold thread_counts.
    apply list_omap_ext, Forall_Forall2_diag, Forall_true.
    intros v. unfold zero_policy.
    destruct (Z.eqb_spec v 0), (Z.eqb_spec (step self) 1);
      repeat case_decide; done.
  - intros E1 E2 E3. unfold thread_counts. rewrite E1, E2, E3.
    eexists. split; [reflexivity|]. reflexivity.
Qed.

(** C5, as amended: for a descriptor whose [step] is not zero, the default
    builder raises exactly when no configuration is supplied, and then it
    is the assertion that fails; with a configuration it returns run specs
    for every input, whatever its format, and the empty list when the
    thread range is empty. *)
Theorem default_specs_raise_iff_no_config (self : App) (bmkinput : Input)
    (config : option Config) :
  step self <> 0 ->
  ((exists e, run (get_default_run_specs self bmkinput config) = Raise e)
     <-> config = None)
  /\ (config = None ->
      run (get_default_run_specs self bmkinput config) = Raise AssertionError)
  /\ (forall cfg, config = Some cfg ->
        exists specs,
          run (get_default_run_specs self bmkinput config) = Ok specs
          /\ length specs = length (thread_counts self))
  /\ (forall cfg, config = Some cfg ->
        0 < step self -> endThread self < startThread self ->
        run (get_default_run_specs self bmkinput config) = Ok []).
Proof.
  intros Hstep%Z.eqb_neq. rewrite run_get_default_run_specs.
  destruct config as [cfg|]; rewrite ?Hstep; split_and!; try done.
  - split; [by intros [e ?]|done].
  - intros ? _. eexists. split; [done|]. by rewrite length_fmap.
  - intros ? _ Hs Hempty. unfold thread_counts, range_list, range_len.
    destruct (Z.ltb_spec 0 (step self)); [|lia].
    destruct (Z.ltb_spec (startThread self) (endThread self + 1)); [lia|done].
  - split; [done|]. by exists AssertionError.
Qed.

(** C7, as amended: with a configuration and a positive [step] the default
    builder returns one run spec for each thread count of the sweep, in
    the order of the sweep, and the thread counts go strictly up; when
    [endThread] is below [startThread] the result is empty. *)
Theorem default_specs_ascending (self : App) (bmkinput : Input)
    (config : Config) :
  0 < step self ->
  exists specs,
    run (get_default_run_specs self bmkinput (Some config)) = Ok specs
    /\ Forall2 (fun n x => thread_arg x = Some (thread_token n))
         (thread_counts self) specs
    /\ StronglySorted Z.lt (thread_counts self)
    /\ (forall n, n ∈ thread_counts self
          <-> exists v, startThread self <= v <= endThread self
                /\ (step self | v - startThread self)
                /\ zero_policy (step self) v = Some n)
    /\ (endThread self < startThread self -> specs = []).
Proof.
  intros Hs. eexists. split_and!.
  - rewrite run_get_default_run_specs.
    destruct (Z.eqb_spec (step self) 0); [lia|done].
  - by apply Forall2_fmap_r, Forall_Forall2_diag, Forall_true.
  - by apply thread_counts_increasing.
  - intros n. unfold thread_counts. rewrite list_elem_of_omap.
    split; intros (v & Hv & Hn); exists v.
    + apply (elem_of_range_list_up _ _ _ _ Hs) in Hv as [? ?].
      split_and!; [lia..|done|done].
    + destruct Hv as [? ?], Hn as [? ?]. split; [|done].
      apply elem_of_range_list_up; [done|]. split; [lia|done].
  - intros Hempty. unfold thread_counts, range_list, range_len.
    destruct (Z.ltb_spec 0 (step self)); [|lia].
    destruct (Z.ltb_spec (startThread self) (endThread self + 1)); [lia|done].
Qed.

(** ** Stat-file names *)

Lemma stat_file_args_of_default_specs (self : App) (bmkinput : Input)
    (config : Config) (ns : list Z) :
  stat_file_arg <$> (default_spec self bmkinput config <$> ns)
  = (fun n => Some (stat_token self config n (display_name bmkinput))) <$> ns.
Proof.
  rewrite <- list_fmap_compose. apply list_fmap_ext. intros _ n _.
  unfold stat_file_arg, default_spec. cbn [compose args].
  by rewrite app_comm_cons, last_snoc.
Qed.

(** C6, as amended: let [getUniqueStatFile] be injective in the thread
    count for the display name of the input and yield relative names for
    it, let [step] be non-zero, and let the sweep not run down through 1
    and 0 with step -1 (that is, not [step = -1], [startThread >= 1] and
    [endThread <= -2] together).  Then the stat-file arguments of the run
    specs of one call of the default builder are pairwise distinct; each
    is "-statFile=" followed by the log directory joined with the name
    generated for the thread count of its run spec. *)
Theorem default_specs_stat_files_distinct (self : App) (bmkinput : Input)
    (config : Config) :
  (forall n m,
     getUniqueStatFile self n (display_name bmkinput)
     = getUniqueStatFile self m (display_name bmkinput) -> n = m) ->
  (forall n,
     startswith_sep (getUniqueStatFile self n (display_name bmkinput))
     = false) ->
  step self <> 0 ->
  ~ (step self = -1 /\ 1 <= startThread self /\ endThread self <= -2) ->
  exists specs,
    run (get_default_run_specs self bmkinput (Some config)) = Ok specs
    /\ stat_file_arg <$> specs
       = (fun n => Some (stat_token self config n (display_name bmkinput)))
           <$> thread_counts self
    /\ NoDup (stat_file_arg <$> specs).
Proof.
  intros Hinj Hrel Hstep Hbad. eexists. split_and!.
  - rewrite run_get_default_run_specs.
    destruct (Z.eqb_spec (step self) 0); [lia|done].
  - apply stat_file_args_of_default_specs.
  - rewrite stat_file_args_of_default_specs.
    apply NoDup_fmap_2_strong; [|by apply thread_counts_NoDup].
    intros n m _ _ [= Heq]. cbn [String.append] in Heq.
    apply Hinj.
    exact (os_path_join_relative_inj _ _ _ (Hrel n) (Hrel m) Heq).
Qed.

End Claims.

(** ** The sample generator *)

Lemma string_length_append (x r : string) :
  String.length (x +:+ r) = (String.length x + String.length r)%nat.
Proof. induction x as [|c x IH]; simpl; [done|]. by f_equal. Qed.

Lemma string_append_cancel_r (x y r : string) : x +:+ r = y +:+ r -> x = y.
Proof.
  revert y. induction x as [|c x IH]; intros [|d y] Heq.
  - done.
  - apply (f_equal String.length) in Heq.
    rewrite !string_length_append in Heq. simpl in Heq. exfalso. lia.
  - apply (f_equal String.length) in Heq.
    rewrite !string_length_append in Heq. simpl in Heq. exfalso. lia.
  - change (String c (x +:+ r) = String d (y +:+ r)) in Heq.
    injection Heq as -> Heq. f_equal. by apply IH.
Qed.

Lemma sample_stat_file_inj (self : App) (display : string) (n m : Z) :
  sample_stat_file self n display = sample_stat_file self m display -> n = m.
Proof.
  unfold sample_stat_file. intros Heq.
  apply (inj (String.append (benchmark self))) in Heq.
  apply (inj (String.append "_")) in Heq.
  apply string_append_cancel_r in Heq.
  by apply (inj pretty) in Heq.
Qed.

Lemma sample_stat_file_relative (c : AppClass) (s e k n : Z)
    (display : string) :
  startswith_sep (sample_stat_file (mkApp c s e k) n display) = false.
Proof. by destruct c. Qed.

(** ** Instances of the theorems and counterexamples *)

Lemma default_specs_bind_by_format_witness :
  step (instantiate DMR) <> 0
  /\ exists specs,
       run (get_default_run_specs (H := sample_stat_file) (instantiate DMR)
              mesh250k (Some sample_config)) = Ok specs
       /\ Forall2 (fun n x =>
            (format (props mesh250k) = "nothing"%string ->
             args x = [thread_token n;
                       stat_token (H := sample_stat_file) (instantiate DMR)
                         sample_config n "gen"])
            /\ (format (props mesh250k) = "mesh"%string ->
                args x = [thread_token n;
                          (file (props mesh250k), AT_PLAIN);
                          stat_token (H := sample_stat_file) (instantiate DMR)
                            sample_config n (name mesh250k)])
            /\ (format (props mesh250k) <> "nothing"%string ->
                format (props mesh250k) <> "mesh"%string ->
                args x = [thread_token n;
                          (file (props mesh250k), AT_INPUT_FILE);
                          stat_token (H := sample_stat_file) (instantiate DMR)
                            sample_config n (name mesh250k)]))
          (thread_counts (instantiate DMR)) specs.
Proof.
  split; [done|].
  apply (default_specs_bind_by_format (H := sample_stat_file)
           (instantiate DMR) mesh250k sample_config).
  done.
Defined.

Lemma default_specs_bind_unfiltered_witness :
  finput edgelist = false
  /\ filter_inputs [edgelist] = []
  /\ format (props edgelist) <> "nothing"%string
  /\ format (props edgelist) <> "mesh"%string
  /\ step (instantiate BFS) <> 0
  /\ exists specs specs',
       run (get_default_run_specs (H := sample_stat_file) (instantiate BFS)
              edgelist (Some sample_config)) = Ok specs
       /\ run (get_default_run_specs (H := sample_stat_file) (instantiate BFS)
                 {| name := "web";
                    props := {| format := "bin/galois";
                                file := "/data/web.el" |} |}
                 (Some sample_config)) = Ok specs'
       /\ args <$> specs = args <$> specs'
       /\ Forall2 (fun n x =>
            args x = [thread_token n;
                      ("/data/web.el"%string, AT_INPUT_FILE);
                      stat_token (H := sample_stat_file) (instantiate BFS)
                        sample_config n "web"])
          (thread_counts (instantiate BFS)) specs.
Proof.
  split_and!; [done..|].
  apply (default_specs_bind_unfiltered (H := sample_stat_file)
           (instantiate BFS) edgelist sample_config); done.
Defined.

Lemma default_specs_sweep_witness :
  0 < step (mkApp BFS (-4) 4 2)
  /\ exists vs specs,
       StronglySorted Z.lt vs
       /\ (forall v, v ∈ vs <-> -4 <= v <= 4 /\ (2 | v - -4))
       /\ run (get_default_run_specs (H := sample_stat_file)
                 (mkApp BFS (-4) 4 2) galaxy1 (Some sample_config)) = Ok specs
       /\ thread_arg <$> specs
          = (fun n => Some (thread_token n))
              <$> omap (fun v => if decide (v = 0)
                                 then (if decide (2 = 1)
                                       then None else Some 1)
                                 else Some v) vs
       /\ (-4 = 80 -> 4 = 80 -> 2 = 10 ->
           exists x, specs = [x]
                     /\ thread_arg x = Some ("-t=80"%string, AT_PLAIN)).
Proof.
  split; [done|].
  apply (default_specs_sweep (H := sample_stat_file)
           (mkApp BFS (-4) 4 2) galaxy1 sample_config).
  done.
Defined.

Lemma default_specs_raise_iff_no_config_witness :
  step (instantiate SSSP) <> 0
  /\ ((exists e, run (get_default_run_specs (H := sample_stat_file)
                        (instantiate SSSP) edgelist (Some sample_config))
                 = Raise e)
      <-> Some sample_config = None)
  /\ (Some sample_config = None ->
      run (get_default_run_specs (H := sample_stat_file)
             (instantiate SSSP) edgelist (Some sample_config))
      = Raise AssertionError)
  /\ (forall cfg, Some sample_config = Some cfg ->
        exists specs,
          run (get_default_run_specs (H := sample_stat_file)
                 (instantiate SSSP) edgelist (Some sample_config)) = Ok specs
          /\ length specs = length (thread_counts (instantiate SSSP)))
  /\ (forall cfg, Some sample_config = Some cfg ->
        0 < step (instantiate SSSP) ->
        endThread (instantiate SSSP) < startThread (instantiate SSSP) ->
        run (get_default_run_specs (H := sample_stat_file)
               (instantiate SSSP) edgelist (Some sample_config)) = Ok []).
Proof.
  split; [done|].
  apply (default_specs_raise_iff_no_config (H := sample_stat_file)
           (instantiate SSSP) edgelist (Some sample_config)).
  done.
Defined.

Lemma default_specs_ascending_witness :
  0 < step (mkApp BFS (-4) 4 2)
  /\ exists specs,
       run (get_default_run_specs (H := sample_stat_file)
              (mkApp BFS (-4) 4 2) galaxy1 (Some sample_config)) = Ok specs
       /\ Forall2 (fun n x => thread_arg x = Some (thread_token n))
            [-4; -2; 1; 2; 4] specs
       /\ StronglySorted Z.lt [-4; -2; 1; 2; 4]
       /\ (forall n, n ∈ [-4; -2; 1; 2; 4]
             <-> exists v, -4 <= v <= 4 /\ (2 | v - -4)
                   /\ zero_policy 2 v = Some n)
       /\ (4 < -4 -> specs = []).
Proof.
  split; [done|].
  apply (default_specs_ascending (H := sample_stat_file)
           (mkApp BFS (-4) 4 2) galaxy1 sample_config).
  done.
Defined.

Lemma default_specs_stat_files_distinct_witness :
  (forall n m,
     sample_stat_file (mkApp MCM (-4) 4 2) n (display_name generated)
     = sample_stat_file (mkApp MCM (-4) 4 2) m (display_name generated) ->
     n = m)
  /\ (forall n,
        startswith_sep
          (sample_stat_file (mkApp MCM (-4) 4 2) n (display_name generated))
        = false)
  /\ step (mkApp MCM (-4) 4 2) <> 0
  /\ ~ (step (mkApp MCM (-4) 4 2) = -1
        /\ 1 <= startThread (mkApp MCM (-4) 4 2)
        /\ endThread (mkApp MCM (-4) 4 2) <= -2)
  /\ exists specs,
       run (get_default_run_specs (H := sample_stat_file)
              (mkApp MCM (-4) 4 2) generated (Some sample_config)) = Ok specs
       /\ stat_file_arg <$> specs
          = (fun n => Some (stat_token (H := sample_stat_file)
                              (mkApp MCM (-4) 4 2) sample_config n "gen"))
              <$> [-4; -2; 1; 2; 4]
       /\ NoDup (stat_file_arg <$> specs).
Proof.
  assert (Hinj : forall n m,
    sample_stat_file (mkApp MCM (-4) 4 2) n (display_name generated)
    = sample_stat_file (mkApp MCM (-4) 4 2) m (display_name generated) ->
    n = m) by (intros n m; apply sample_stat_file_inj).
  assert (Hrel : forall n,
    startswith_sep
      (sample_stat_file (mkApp MCM (-4) 4 2) n (display_name generated))
    = false) by (intros n; apply sample_stat_file_relative).
  assert (Hstep : step (mkApp MCM (-4) 4 2) <> 0) by done.
  assert (Hbad : ~ (step (mkApp MCM (-4) 4 2) = -1
                    /\ 1 <= startThread (mkApp MCM (-4) 4 2)
                    /\ endThread (mkApp MCM (-4) 4 2) <= -2))
    by (cbn; lia).
  split_and!; [done..|].
  exact (default_specs_stat_files_distinct (H := sample_stat_file)
           (mkApp MCM (-4) 4 2) generated sample_config
           Hinj Hrel Hstep Hbad).
Defined.

(** C5 fails as stated: a descriptor with [step = 0] makes the default
    builder raise although a configuration is supplied; it is the
    [ValueError] of [range]. *)
Lemma zero_step_raises_with_config :
  run (get_default_run_specs (H := sample_stat_file)
         (mkApp MCM 80 80 0) galaxy1 (Some sample_config))
  = Raise ValueError.
Proof. reflexivity. Qed.

(** C7 fails as stated: with [startThread = 4], [endThread = 1] and
    [step = -1] the sweep is [range(4, 2, -1)], and the run specs come with
    4 threads first and 3 threads second. *)
Lemma descending_sweep_descends :
  match run (get_default_run_specs (H := sample_stat_file)
               (mkApp MCM 4 1 (-1)) galaxy1 (Some sample_config)) with
  | Ok specs => thread_arg <$> specs
  | Raise _ => []
  end
  = [Some ("-t=4"%string, AT_PLAIN); Some ("-t=3"%string, AT_PLAIN)].
Proof. vm_compute. reflexivity. Qed.

(** C6 fails as stated, in three ways.  With [startThread = 1],
    [endThread = -2] and [step = -1] the sweep is [range(1, -1, -1)], that
    is 1 and 0, and the zero test turns the 0 into a second 1: both run
    specs get the same stat file, although the generator tells all thread
    counts apart.  A generator that is a function of thread count and name
    need not tell thread counts apart.  And two names that differ, one
    absolute and one relative, may join to the same path, since
    [os.path.join] returns an absolute second component as it is. *)
Lemma stat_files_collide :
  match run (get_default_run_specs (H := sample_stat_file)
               (mkApp MCM 1 (-2) (-1)) generated (Some sample_config)) with
  | Ok specs => stat_file_arg <$> specs
  | Raise _ => []
  end
  = [Some ("-statFile=/logs/mcm_1_gen.log"%string, AT_PLAIN);
     Some ("-statFile=/logs/mcm_1_gen.log"%string, AT_PLAIN)]
  /\ match run (get_default_run_specs (H := constant_stat_file)
                  (mkApp MCM 1 2 1) generated (Some sample_config)) with
     | Ok specs => stat_file_arg <$> specs
     | Raise _ => []
     end
     = [Some ("-statFile=/logs/mcm_gen.log"%string, AT_PLAIN);
        Some ("-statFile=/logs/mcm_gen.log"%string, AT_PLAIN)]
  /\ match run (get_default_run_specs (H := absolute_stat_file)
                  (mkApp MCM 1 2 1) generated (Some sample_config)) with
     | Ok specs => stat_file_arg <$> specs
     | Raise _ => []
     end
     = [Some ("-statFile=/logs/2.log"%string, AT_PLAIN);
        Some ("-statFile=/logs/2.log"%string, AT_PLAIN)]
  /\ absolute_stat_file (mkApp MCM 1 2 1) 1 "gen"
     <> absolute_stat_file (mkApp MCM 1 2 1) 2 "gen".
Proof. split_and!; by vm_compute. Qed.

(** ** Further properties of the builders *)

Lemma os_path_join_empty (p : string) : os_path_join "" p = p.
Proof. unfold os_path_join. by destruct (startswith_sep p). Qed.

Lemma relativeAppPath_relative (self : App) :
  startswith_sep (relativeAppPath self) = false.
Proof. unfold relativeAppPath. by destruct (app_class self). Qed.

Lemma zero_policy_nonzero (k v n : Z) : zero_policy k v = Some n -> n <> 0.
Proof.
  unfold zero_policy.
  destruct (Z.eqb_spec v 0), (Z.eqb_spec k 1); cbn; intros [= <-]; lia.
Qed.

Lemma zero_policy_id (k v : Z) : v <> 0 -> zero_policy k v = Some v.
Proof. unfold zero_policy. by destruct (Z.eqb_spec v 0). Qed.

Lemma omap_zero_policy_id (k : Z) (l : list Z) :
  Forall (fun v => v <> 0) l -> omap (zero_policy k) l = l.
Proof.
  induction 1 as [|v l Hv _ IH]; [done|].
  cbn [omap list_omap]. by rewrite zero_policy_id, IH.
Qed.

Lemma thread_token_inj (n m : Z) : thread_token n = thread_token m -> n = m.
Proof.
  unfold thread_token, fmt_d. intros [= Heq].
  change (pretty n = pretty m) in Heq. by apply (inj pretty) in Heq.
Qed.

Lemma filter_plain_tokens (toks : list string) :
  List.filter (fun a : string * ArgType => bool_decide (a.2 = AT_INPUT_FILE))
    ((fun t => (t, AT_PLAIN)) <$> toks) = [].
Proof. by induction toks. Qed.

Section Further.
Context `{!GraphBMKSharedMem}.

(** The arguments of a run spec of [get_run_spec], written out. *)
Lemma args_of_run_spec (self : App) (bmkinput : Input) (config : Config)
    (toks : list string) (n : Z) :
  args (append_tokens toks (default_spec self bmkinput config n))
  = thread_token n :: input_tokens bmkinput
    ++ [stat_token self config n (display_name bmkinput)]
    ++ ((fun t => (t, AT_PLAIN)) <$> toks).
Proof.
  destruct (append_tokens_fields toks (default_spec self bmkinput config n))
    as [-> _].
  unfold default_spec. cbn [args]. by rewrite <- app_comm_cons, <- app_assoc.
Qed.

Lemma input_file_tokens_of_run_spec (self : App) (bmkinput : Input)
    (config : Config) (toks : list string) (n : Z) :
  List.filter (fun a : string * ArgType => bool_decide (a.2 = AT_INPUT_FILE))
    (args (append_tokens toks (default_spec self bmkinput config n)))
  = if String.eqb (format (props bmkinput)) "nothing"
       || String.eqb (format (props bmkinput)) "mesh"
    then [] else [(file (props bmkinput), AT_INPUT_FILE)].
Proof.
  rewrite args_of_run_spec. cbn [List.filter thread_token snd].
  rewrite bool_decide_false by done.
  rewrite !List.filter_app, filter_plain_tokens. cbn [List.filter stat_token snd].
  rewrite bool_decide_false by done. rewrite !app_nil_r.
  unfold input_tokens.
  destruct (String.eqb (format (props bmkinput)) "nothing"); [done|].
  by destruct (String.eqb (format (props bmkinput)) "mesh").
Qed.

(** X1: the outcome of [get_run_spec], for every class.  Without a
    configuration the assertion fails, also when [step] is zero, since it
    is checked before the range is built; with a configuration and a zero
    [step] it is the [ValueError] of [range]; in every other case run
    specs are returned. *)
Theorem get_run_spec_outcome (self : App) (bmkinput : Input)
    (config : option Config) :
  (run (get_run_spec self bmkinput config) = Raise AssertionError
     <-> config = None)
  /\ (run (get_run_spec self bmkinput config) = Raise ValueError
      <-> config <> None /\ step self = 0)
  /\ ((exists specs, run (get_run_spec self bmkinput config) = Ok specs)
      <-> config <> None /\ step self <> 0).
Proof.
  rewrite run_get_run_spec.
  destruct config as [cfg|];
    [destruct (Z.eqb_spec (step self) 0) as [E|E]|];
    split_and!; split; intros Hx;
    first [done | by destruct Hx | by split | by eexists].
Qed.

(** X2: every run spec that [get_run_spec] returns, for every class,
    carries the descriptor and the input it was built for, the pass
    checker and the zero performance policy, although both policies are
    set only after the run spec has been put on the result list; the
    overrides change none of these. *)
Theorem get_run_spec_policies (self : App) (bmkinput : Input)
    (config : Config) :
  step self <> 0 ->
  exists specs,
    run (get_run_spec self bmkinput (Some config)) = Ok specs
    /\ length specs = length (thread_counts self)
    /\ Forall (fun x =>
         bmk_binary x = self /\ bmk_input x = bmkinput
         /\ checker x = Some PassChecker /\ perf x = Some ZeroPerf) specs.
Proof.
  intros Hstep%Z.eqb_neq. eexists. rewrite run_get_run_spec, Hstep.
  split_and!; [done|by rewrite !length_fmap|].
  rewrite !Forall_fmap. apply Forall_true. intros n. cbn [compose].
  by destruct (append_tokens_fields (appended_tokens (app_class self))
                 (default_spec self bmkinput config n))
    as (_ & _ & -> & -> & -> & ->).
Qed.

(** X3: the binary of every run spec is [relativeAppPath] joined to the
    configured "pathToApps"; no class has an absolute [relativeAppPath], so
    the join never drops "pathToApps": the binary is "pathToApps", a
    separator unless "pathToApps" is empty or ends with one, and
    [relativeAppPath]. *)
Theorem get_run_spec_binary (self : App) (bmkinput : Input) (config : Config) :
  step self <> 0 ->
  exists specs,
    run (get_run_spec self bmkinput (Some config)) = Ok specs
    /\ Forall (fun x =>
         binary x = Some (os_path_join (get_var config "pathToApps")
                                       (relativeAppPath self))
         /\ exists sep,
              binary x = Some (get_var config "pathToApps" +:+ sep
                               +:+ relativeAppPath self)
              /\ (sep = "" \/ sep = "/")%string
              /\ (sep = ""%string
                  <-> get_var config "pathToApps" = ""%string
                      \/ endswith_sep (get_var config "pathToApps") = true))
       specs.
Proof.
  intros Hstep%Z.eqb_neq. eexists. rewrite run_get_run_spec, Hstep.
  split; [done|].
  rewrite !Forall_fmap. apply Forall_true. intros n. cbn [compose].
  destruct (append_tokens_fields (appended_tokens (app_class self))
              (default_spec self bmkinput config n))
    as (_ & -> & _). cbn [default_spec binary].
  rewrite os_path_join_empty. split; [done|].
  unfold os_path_join. rewrite relativeAppPath_relative.
  destruct (get_var config "pathToApps") as [|c p] eqn:Hp.
  - exists ""%string. split_and!; [done|by left|]. split; [by left|done].
  - destruct (endswith_sep (String c p)) eqn:Hend.
    + exists ""%string. split_and!; [done|by left|]. split; [by right|done].
    + exists "/"%string. split_and!; [done|by right|].
      split; [done|]. by intros [?|?].
Qed.

(** X15: the full argument list of every run spec of [get_run_spec], for
    every class: the thread flag, the tokens bound to the input (none, a
    plain file token or an input-file token), the stat-file flag, and then
    the tokens of the algorithm; the thread flag and the stat-file name
    are built from the same thread count. *)
Theorem get_run_spec_args (self : App) (bmkinput : Input) (config : Config) :
  step self <> 0 ->
  exists specs,
    run (get_run_spec self bmkinput (Some config)) = Ok specs
    /\ Forall2 (fun n x =>
         args x
         = [thread_token n]
           ++ (if String.eqb (format (props bmkinput)) "nothing" then []
               else if String.eqb (format (props bmkinput)) "mesh"
                    then [(file (props bmkinput), AT_PLAIN)]
                    else [(file (props bmkinput), AT_INPUT_FILE)])
           ++ [stat_token self config n
                 (if String.eqb (format (props bmkinput)) "nothing"
                  then "gen"%string else name bmkinput)]
           ++ ((fun t => (t, AT_PLAIN))
                 <$> appended_tokens (app_class self)))
       (thread_counts self) specs.
Proof.
  intros Hstep%Z.eqb_neq. eexists. rewrite run_get_run_spec, Hstep.
  split; [done|].
  rewrite <- list_fmap_compose.
  apply Forall2_fmap_r, Forall_Forall2_diag, Forall_true. intros n.
  cbn [compose]. by rewrite args_of_run_spec.
Qed.

(** X4: no run spec is built for zero threads.  Whatever the sweep, the
    thread flag of every run spec of [get_run_spec] is "-t=" followed by a
    non-zero number, and never "-t=0". *)
Theorem get_run_spec_never_zero_threads (self : App) (bmkinput : Input)
    (config : Config) :
  step self <> 0 ->
  exists specs,
    run (get_run_spec self bmkinput (Some config)) = Ok specs
    /\ Forall (fun x =>
         (exists n, n <> 0 /\ thread_arg x = Some (thread_token n))
         /\ thread_arg x <> Some ("-t=0"%string, AT_PLAIN)) specs.
Proof.
  intros Hstep%Z.eqb_neq. eexists. rewrite run_get_run_spec, Hstep.
  split; [done|].
  rewrite !Forall_fmap. apply Forall_forall. intros n Hn. cbn [compose].
  unfold thread_arg. rewrite args_of_run_spec. cbn [head].
  apply list_elem_of_omap in Hn as (v & _ & Hn%zero_policy_nonzero).
  split; [by exists n|].
  intros Heq. apply Hn, thread_token_inj.
  change (thread_token 0) with ("-t=0"%string, AT_PLAIN). congruence.
Qed.

(** X9: a run spec of [get_run_spec] holds at most one token tagged as
    input file, for every class: none when the format is "nothing" or
    "mesh", and otherwise exactly the file of the input.  The tokens an
    algorithm adds are never tagged. *)
Theorem get_run_spec_input_file_tokens (self : App) (bmkinput : Input)
    (config : Config) :
  step self <> 0 ->
  exists specs,
    run (get_run_spec self bmkinput (Some config)) = Ok specs
    /\ Forall (fun x =>
         List.filter
           (fun a : string * ArgType => bool_decide (a.2 = AT_INPUT_FILE))
           (args x)
         = if String.eqb (format (props bmkinput)) "nothing"
              || String.eqb (format (props bmkinput)) "mesh"
           then [] else [(file (props bmkinput), AT_INPUT_FILE)]) specs.
Proof.
  intros Hstep%Z.eqb_neq. eexists. rewrite run_get_run_spec, Hstep.
  split; [done|].
  rewrite !Forall_fmap. apply Forall_true. intros n. cbn [compose].
  apply input_file_tokens_of_run_spec.
Qed.

(** X10: filtering first, then building.  For an input that
    [filter_inputs] keeps, a run spec of [get_run_spec] holds a token
    tagged as input file exactly when the format is "bin/galois", and
    that token is then the file of the input. *)
Theorem filtered_input_file_binding (self : App) (inputs : list Input)
    (bmkinput : Input) (config : Config) :
  bmkinput ∈ filter_inputs inputs ->
  step self <> 0 ->
  exists specs,
    run (get_run_spec self bmkinput (Some config)) = Ok specs
    /\ Forall (fun x =>
         forall f, (f, AT_INPUT_FILE) ∈ args x
           <-> format (props bmkinput) = "bin/galois"%string
               /\ f = file (props bmkinput)) specs.
Proof.
  intros Hin Hstep%Z.eqb_neq. eexists. rewrite run_get_run_spec, Hstep.
  split; [done|].
  rewrite !Forall_fmap. apply Forall_true. intros n f. cbn [compose].
  apply list_elem_of_In, filter_In in Hin as [_ Hin].
  transitivity ((f, AT_INPUT_FILE)
    ∈ List.filter
        (fun a : string * ArgType => bool_decide (a.2 = AT_INPUT_FILE))
        (args (append_tokens (appended_tokens (app_class self))
                 (default_spec self bmkinput config n)))).
  { rewrite !list_elem_of_In, filter_In. cbn [snd].
    rewrite bool_decide_true by done. tauto. }
  rewrite input_file_tokens_of_run_spec. revert Hin. unfold finput.
  destruct (String.eqb_spec (format (props bmkinput)) "bin/galois")
    as [E|E].
  - intros _. rewrite E. cbn [String.eqb orb Ascii.eqb Bool.eqb].
    rewrite list_elem_of_singleton. split; [by intros [= ->]|by intros [_ ->]].
  - destruct (String.eqb (format (props bmkinput)) "nothing"),
      (String.eqb (format (props bmkinput)) "mesh"); intros Hin;
      try done; cbn [orb];
      (split; [by intros ?%elem_of_nil|by intros [? _]]).
Qed.

(** X12: the run specs that [get_run_spec] returns are separate objects.
    Run in any store, the references it returns are pairwise distinct,
    each points to an object allocated by this call, and the call
    allocates exactly one object per reference; so no two run specs of a
    result share state, and none is shared with an earlier result. *)
Theorem get_run_spec_fresh_objects (self : App) (bmkinput : Input)
    (config : option Config) (st : list RunSpec) :
  match get_run_spec self bmkinput config st with
  | Ok (xs, st') =>
      NoDup xs
      /\ Forall (fun x => (length st <= x < length st')%nat) xs
      /\ length st' = (length st + length xs)%nat
      /\ length (deref st' xs) = length xs
  | Raise _ => config = None \/ step self = 0
  end.
Proof.
  rewrite get_run_spec_exec. destruct config as [cfg|]; [|by left].
  destruct (Z.eqb_spec (step self) 0) as [E|E]; [by right|].
  set (new := append_tokens (appended_tokens (app_class self))
                <$> (default_spec self bmkinput cfg <$> thread_counts self)).
  assert (Hlen : length (thread_counts self) = length new).
  { unfold new. by rewrite !length_fmap. }
  rewrite Hlen. split_and!.
  - apply NoDup_seq.
  - apply Forall_forall. intros x Hx%elem_of_seq. rewrite length_app. lia.
  - by rewrite length_app, length_seq.
  - by rewrite deref_new, length_seq.
Qed.

End Further.

(** X11: [filter_inputs] applied twice is [filter_inputs] applied once; it
    filters a concatenation part by part, never lengthens a list, and
    returns its argument unchanged exactly when every item has an
    accepted format. *)
Theorem filter_inputs_algebra (l l1 l2 : list Input) :
  filter_inputs (filter_inputs l) = filter_inputs l
  /\ filter_inputs (l1 ++ l2) = filter_inputs l1 ++ filter_inputs l2
  /\ (length (filter_inputs l) <= length l)%nat
  /\ (filter_inputs l = l
      <-> Forall (fun x => format (props x)
                             ∈ ["bin/galois"; "mesh"; "nothing"]%string) l).
Proof.
  split_and!.
  - unfold filter_inputs. induction l as [|x l IH]; [done|]. cbn.
    destruct (finput x) eqn:Hx; [|done]. cbn. by rewrite Hx, IH.
  - apply List.filter_app.
  - apply sublist_length, filter_inputs_sublist.
  - split.
    + intros Heq. apply Forall_forall. intros x Hx.
      rewrite <- Heq in Hx.
      apply list_elem_of_In, filter_In in Hx as [_ Hx].
      by apply finput_accepts.
    + unfold filter_inputs. induction 1 as [|x l' Hx _ IH]; [done|]. cbn.
      apply finput_accepts in Hx. by rewrite Hx, IH.
Qed.

(** X14: the class table.  Two descriptors with the same [benchmark] name,
    or with the same [relativeAppPath], are of the same class, and no
    [relativeAppPath] is absolute. *)
Theorem class_table_injective (a b : App) :
  (benchmark a = benchmark b -> app_class a = app_class b)
  /\ (relativeAppPath a = relativeAppPath b -> app_class a = app_class b)
  /\ startswith_sep (relativeAppPath a) = false.
Proof.
  unfold benchmark, relativeAppPath.
  destruct (app_class a), (app_class b); split_and!; done.
Qed.

(** ** Further properties of the thread sweep *)

Lemma range_list_up_closed (start stop' step : Z) :
  0 < step ->
  range_list start (stop' + 1) step
  = (fun i => start + i * step)
      <$> seqZ 0 (if decide (start <= stop')
                  then (stop' - start) / step + 1 else 0).
Proof.
  intros Hs. unfold range_list, range_len.
  destruct (Z.ltb_spec 0 step); [|lia].
  destruct (Z.ltb_spec start (stop' + 1)), (decide (start <= stop'));
    try lia; [|done].
  by replace (stop' + 1 - start - 1) with (stop' - start) by lia.
Qed.

Lemma range_list_step_1 (start stop : Z) :
  range_list start stop 1 = seqZ start (stop - start).
Proof.
  unfold range_list, range_len. cbn [Z.ltb Z.compare].
  destruct (Z.ltb_spec start stop).
  - rewrite Z.div_1_r. replace (stop - start - 1 + 1) with (stop - start) by lia.
    rewrite <- (Z.add_0_r start) at 2. rewrite <- fmap_add_seqZ.
    apply list_fmap_ext. intros _ i _. lia.
  - by rewrite !seqZ_nil by lia.
Qed.

Lemma elem_of_range_list_down (v start stop step : Z) :
  step < 0 ->
  v ∈ range_list start stop step
  <-> stop < v <= start /\ (step | v - start).
Proof.
  intros Hs. rewrite elem_of_range_list. split.
  - intros (i & [Hi1 Hi2] & ->). apply range_len_down in Hi2; [|done..].
    split; [nia|]. exists i. lia.
  - intros ([Hv1 Hv2] & i & Hi). exists i.
    assert (0 <= i) by nia. split; [|lia].
    split; [done|]. apply range_len_down; [done..|]. lia.
Qed.

Lemma range_list_decreasing (start stop step : Z) :
  step < 0 -> StronglySorted (fun a b => b < a) (range_list start stop step).
Proof.
  intros Hs. unfold range_list.
  apply StronglySorted_fmap with (R1 := Z.lt); [|apply seqZ_increasing].
  intros x y Hxy. nia.
Qed.

Lemma length_omap_total {A B} (f : A -> option B) (l : list A) :
  Forall (fun x => is_Some (f x)) l -> length (omap f l) = length l.
Proof.
  induction 1 as [|x l [y Hy] _ IH]; [done|].
  cbn [omap list_omap]. rewrite Hy. cbn. by rewrite IH.
Qed.

(** The number of thread counts of an ascending sweep. *)
Lemma length_thread_counts (self : App) :
  0 < step self ->
  Z.of_nat (length (thread_counts self))
  = (if decide (startThread self <= endThread self)
     then (endThread self - startThread self) / step self + 1 else 0)
    - (if decide (step self = 1 /\ startThread self <= 0 <= endThread self)
       then 1 else 0).
Proof.
  intros Hs. unfold thread_counts.
  destruct (decide (step self = 1)) as [E1|E1].
  - rewrite E1, range_list_step_1, Z.div_1_r.
    destruct (decide (startThread self <= 0 <= endThread self)) as [H0|H0].
    + rewrite decide_True by lia. rewrite decide_True by done.
      replace (endThread self + 1 - startThread self)
        with (- startThread self + (1 + endThread self)) by lia.
      rewrite seqZ_app by lia.
      replace (startThread self + - startThread self) with 0 by lia.
      rewrite (seqZ_app 0 1) by lia. rewrite omap_app, omap_app.
      rewrite (omap_zero_policy_id _ (seqZ _ (- _))),
        (omap_zero_policy_id _ (seqZ (0 + 1) _)).
      * rewrite !length_app, !length_seqZ.
        change (length (omap (zero_policy 1) (seqZ 0 1))) with 0%nat. lia.
      * apply Forall_seqZ. lia.
      * apply Forall_seqZ. lia.
    + rewrite (decide_False (P := _ /\ _)) by tauto.
      rewrite omap_zero_policy_id by (apply Forall_seqZ; lia).
      rewrite length_seqZ. case_decide; lia.
  - rewrite (decide_False (P := _ /\ _)) by tauto.
    rewrite length_omap_total.
    + rewrite range_list_up_closed by done.
      rewrite length_fmap, length_seqZ. case_decide; [|lia].
      assert (0 <= (endThread self - startThread self) / step self)
        by (apply Z.div_pos; lia).
      lia.
    + apply Forall_true. intros v. unfold zero_policy.
      destruct (Z.eqb_spec v 0), (Z.eqb_spec (step self) 1); by eauto.
Qed.

Section FurtherSweep.
Context `{!GraphBMKSharedMem}.

Lemma thread_args_of_run_specs (self : App) (bmkinput : Input)
    (config : Config) :
  step self <> 0 ->
  exists specs,
    run (get_run_spec self bmkinput (Some config)) = Ok specs
    /\ length specs = length (thread_counts self)
    /\ thread_arg <$> specs
       = (fun n => Some (thread_token n)) <$> thread_counts self.
Proof.
  intros Hstep%Z.eqb_neq. eexists. rewrite run_get_run_spec, Hstep.
  split_and!; [done|by rewrite !length_fmap|].
  rewrite <- !list_fmap_compose. apply list_fmap_ext. intros _ n _.
  cbn [compose]. unfold thread_arg. by rewrite args_of_run_spec.
Qed.

(** X5: with a positive [step] every thread count of a result is at least
    [startThread], and at most [endThread] with one exception: when
    [endThread] is 0 and [step] is not 1, the 0 of the range is replaced by
    1, which lies above [endThread]. *)
Theorem get_run_spec_thread_bounds (self : App) (bmkinput : Input)
    (config : Config) :
  0 < step self ->
  exists ns specs,
    run (get_run_spec self bmkinput (Some config)) = Ok specs
    /\ thread_arg <$> specs = (fun n => Some (thread_token n)) <$> ns
    /\ Forall (fun n =>
         startThread self <= n
         /\ (n <= endThread self
             \/ (n = 1 /\ endThread self = 0 /\ step self <> 1))) ns.
Proof.
  intros Hs. exists (thread_counts self).
  destruct (thread_args_of_run_specs self bmkinput config) as
    (specs & Hrun & _ & Hargs); [lia|].
  exists specs. split_and!; [done..|].
  apply Forall_forall. intros n Hn. unfold thread_counts in Hn.
  apply list_elem_of_omap in Hn as (v & Hv & Hn).
  apply (elem_of_range_list_up _ _ _ _ Hs) in Hv as [Hv _].
  unfold zero_policy in Hn.
  destruct (Z.eqb_spec v 0), (Z.eqb_spec (step self) 1);
    simplify_eq/=; lia.
Qed.

(** X6: the number of run specs of an ascending sweep.  With a positive
    [step] it is the number of values of the range,
    [(endThread - startThread) / step + 1] for a non-empty range, less one
    when [step] is 1 and the range holds 0.  Only with step 1 does the zero
    test change the number of runs. *)
Theorem get_run_spec_count (self : App) (bmkinput : Input) (config : Config) :
  0 < step self ->
  exists specs,
    run (get_run_spec self bmkinput (Some config)) = Ok specs
    /\ Z.of_nat (length specs)
       = (if decide (startThread self <= endThread self)
          then (endThread self - startThread self) / step self + 1 else 0)
         - (if decide (step self = 1
                       /\ startThread self <= 0 <= endThread self)
            then 1 else 0).
Proof.
  intros Hs.
  destruct (thread_args_of_run_specs self bmkinput config) as
    (specs & Hrun & Hlen & _); [lia|].
  exists specs. split; [done|]. rewrite Hlen. by apply length_thread_counts.
Qed.

(** X7: a sweep that starts at 0.  With [startThread = 0], a positive
    [step] and [endThread >= 0] the runs are for 1 thread (unless [step]
    is 1) and then for [step], [2 * step], ... threads up to [endThread]. *)
Theorem get_run_spec_sweep_from_zero (self : App) (bmkinput : Input)
    (config : Config) :
  0 < step self -> startThread self = 0 -> 0 <= endThread self ->
  exists specs,
    run (get_run_spec self bmkinput (Some config)) = Ok specs
    /\ thread_arg <$> specs
       = (fun n => Some (thread_token n))
           <$> ((if decide (step self = 1) then [] else [1])
                ++ ((fun i => i * step self)
                      <$> seqZ 1 (endThread self / step self))).
Proof.
  intros Hs H0 He.
  destruct (thread_args_of_run_specs self bmkinput config) as
    (specs & Hrun & _ & Hargs); [lia|].
  exists specs. split; [done|]. rewrite Hargs. f_equal.
  unfold thread_counts. rewrite range_list_up_closed, H0 by done.
  rewrite decide_True by done. rewrite Z.sub_0_r.
  assert (0 <= endThread self / step self) by (apply Z.div_pos; lia).
  rewrite seqZ_cons by lia.
  replace (Z.pred (endThread self / step self + 1))
    with (endThread self / step self) by lia.
  cbn [fmap list_fmap omap list_omap]. change (Z.succ 0) with 1.
  assert (Htail : omap (zero_policy (step self))
            ((fun i => 0 + i * step self)
               <$> seqZ 1 (endThread self / step self))
          = (fun i => i * step self) <$> seqZ 1 (endThread self / step self)).
  { rewrite omap_zero_policy_id.
    - apply list_fmap_ext. intros _ i _. lia.
    - apply Forall_fmap, Forall_seqZ. intros i Hi. cbn. nia. }
  change (list_fmap Z Z ?f ?l) with (f <$> l). change (list_omap Z Z ?f ?l) with (omap f l).
  rewrite Htail. unfold zero_policy. cbn [Z.mul Z.add Z.eqb andb].
  destruct (Z.eqb_spec (step self) 1); by case_decide.
Qed.

(** X13: the zero test does nothing to a sweep that does not pass 0.
    With a positive [step] and [startThread > 0] (or [endThread < 0]) the
    runs are for [startThread], [startThread + step], ... up to
    [endThread], each value once. *)
Theorem get_run_spec_sweep_without_zero (self : App) (bmkinput : Input)
    (config : Config) :
  0 < step self -> 0 < startThread self \/ endThread self < 0 ->
  exists specs,
    run (get_run_spec self bmkinput (Some config)) = Ok specs
    /\ thread_arg <$> specs
       = (fun n => Some (thread_token n))
           <$> ((fun i => startThread self + i * step self)
                  <$> seqZ 0 (if decide (startThread self <= endThread self)
                              then (endThread self - startThread self)
                                   / step self + 1
                              else 0)).
Proof.
  intros Hs H0.
  destruct (thread_args_of_run_specs self bmkinput config) as
    (specs & Hrun & _ & Hargs); [lia|].
  exists specs. split; [done|]. rewrite Hargs. f_equal.
  unfold thread_counts. rewrite <- range_list_up_closed by done.
  apply omap_zero_policy_id, Forall_forall. intros v Hv.
  apply (elem_of_range_list_up _ _ _ _ Hs) in Hv as [Hv _]. lia.
Qed.

(** X8: a descending sweep.  With a negative [step] the default builder
    runs through [startThread], [startThread + step], ... downwards, as
    long as the value is above [endThread + 1]: neither [endThread + 1]
    nor [endThread] itself gets a run.  The zero test applies as in an
    ascending sweep. *)
Theorem default_specs_descending_sweep (self : App) (bmkinput : Input)
    (config : Config) :
  step self < 0 ->
  exists vs specs,
    StronglySorted (fun a b => b < a) vs
    /\ (forall v, v ∈ vs
          <-> endThread self + 1 < v <= startThread self
              /\ (step self | v - startThread self))
    /\ run (get_default_run_specs self bmkinput (Some config)) = Ok specs
    /\ thread_arg <$> specs
       = (fun n => Some (thread_token n))
           <$> omap (fun v => if decide (v = 0) then Some 1 else Some v) vs.
Proof.
  intros Hs.
  exists (range_list (startThread self) (endThread self + 1) (step self)).
  eexists. split_and!.
  - by apply range_list_decreasing.
  - intros v. by apply elem_of_range_list_down.
  - rewrite run_get_default_run_specs.
    destruct (Z.eqb_spec (step self) 0); [lia|done].
  - rewrite thread_args_of_default_specs. f_equal. unfold thread_counts.
    apply list_omap_ext, Forall_Forall2_diag, Forall_true.
    intros v. unfold zero_policy.
    destruct (Z.eqb_spec v 0), (Z.eqb_spec (step self) 1);
      repeat case_decide; try done; lia.
Qed.

End FurtherSweep.

(** ** Instances of the further theorems *)

Lemma get_run_spec_policies_witness :
  step (instantiate BarnesHut) <> 0
  /\ exists specs,
       run (get_run_spec (H := sample_stat_file) (instantiate BarnesHut)
              galaxy1 (Some sample_config)) = Ok specs
       /\ length specs = 1%nat
       /\ Forall (fun x =>
            bmk_binary x = instantiate BarnesHut /\ bmk_input x = galaxy1
            /\ checker x = Some PassChecker /\ perf x = Some ZeroPerf) specs.
Proof.
  split; [done|].
  apply (get_run_spec_policies (H := sample_stat_file)
           (instantiate BarnesHut) galaxy1 sample_config).
  done.
Defined.

Lemma get_run_spec_binary_witness :
  step (instantiate GMetis) <> 0
  /\ exists specs,
       run (get_run_spec (H := sample_stat_file) (instantiate GMetis)
              mesh250k (Some sample_config)) = Ok specs
       /\ Forall (fun x =>
            binary x = Some (os_path_join "/opt/apps" "gmetis/gmetis")
            /\ exists sep,
                 binary x = Some ("/opt/apps" +:+ sep +:+ "gmetis/gmetis")
                 /\ (sep = "" \/ sep = "/")%string
                 /\ (sep = ""%string
                     <-> "/opt/apps"%string = ""%string
                         \/ endswith_sep "/opt/apps" = true))
          specs.
Proof.
  split; [done|].
  apply (get_run_spec_binary (H := sample_stat_file)
           (instantiate GMetis) mesh250k sample_config).
  done.
Defined.

Lemma get_run_spec_args_witness :
  instantiate MCM ∈ BINARIES
  /\ step (instantiate MCM) <> 0
  /\ exists specs,
       run (get_run_spec (H := sample_stat_file) (instantiate MCM)
              generated (Some sample_config)) = Ok specs
       /\ Forall2 (fun n x =>
            args x
            = [thread_token n]
              ++ (if String.eqb (format (props generated)) "nothing" then []
                  else if String.eqb (format (props generated)) "mesh"
                       then [(file (props generated), AT_PLAIN)]
                       else [(file (props generated), AT_INPUT_FILE)])
              ++ [stat_token (H := sample_stat_file) (instantiate MCM)
                    sample_config n
                    (if String.eqb (format (props generated)) "nothing"
                     then "gen"%string else name generated)]
              ++ ((fun t => (t, AT_PLAIN)) <$> appended_tokens MCM))
          [80] specs.
Proof.
  split; [by apply list_elem_of_singleton|]. split; [done|].
  apply (get_run_spec_args (H := sample_stat_file)
           (instantiate MCM) generated sample_config).
  done.
Defined.

Lemma get_run_spec_never_zero_threads_witness :
  step (mkApp SSSP (-1) 1 1) <> 0
  /\ exists specs,
       run (get_run_spec (H := sample_stat_file) (mkApp SSSP (-1) 1 1)
              galaxy1 (Some sample_config)) = Ok specs
       /\ Forall (fun x =>
            (exists n, n <> 0 /\ thread_arg x = Some (thread_token n))
            /\ thread_arg x <> Some ("-t=0"%string, AT_PLAIN)) specs.
Proof.
  split; [done|].
  apply (get_run_spec_never_zero_threads (H := sample_stat_file)
           (mkApp SSSP (-1) 1 1) galaxy1 sample_config).
  done.
Defined.

Lemma get_run_spec_input_file_tokens_witness :
  step (instantiate SSSP) <> 0
  /\ exists specs,
       run (get_run_spec (H := sample_stat_file) (instantiate SSSP)
              galaxy1 (Some sample_config)) = Ok specs
       /\ Forall (fun x =>
            List.filter
              (fun a : string * ArgType => bool_decide (a.2 = AT_INPUT_FILE))
              (args x)
            = [("/data/galaxy1.gr"%string, AT_INPUT_FILE)]) specs.
Proof.
  split; [done|].
  apply (get_run_spec_input_file_tokens (H := sample_stat_file)
           (instantiate SSSP) galaxy1 sample_config).
  done.
Defined.

Lemma filtered_input_file_binding_witness :
  mesh250k ∈ filter_inputs [galaxy1; edgelist; mesh250k]
  /\ step (instantiate DMR) <> 0
  /\ exists specs,
       run (get_run_spec (H := sample_stat_file) (instantiate DMR)
              mesh250k (Some sample_config)) = Ok specs
       /\ Forall (fun x =>
            forall f, (f, AT_INPUT_FILE) ∈ args x
              <-> format (props mesh250k) = "bin/galois"%string
                  /\ f = file (props mesh250k)) specs.
Proof.
  assert (Hin : mesh250k ∈ filter_inputs [galaxy1; edgelist; mesh250k]).
  { cbn. by apply list_elem_of_In; right; left. }
  split; [exact Hin|]. split; [done|].
  apply (filtered_input_file_binding (H := sample_stat_file)
           (instantiate DMR) [galaxy1; edgelist; mesh250k] mesh250k
           sample_config Hin).
  done.
Defined.

Lemma get_run_spec_thread_bounds_witness :
  0 < step (mkApp DMR (-4) 0 2)
  /\ exists ns specs,
       run (get_run_spec (H := sample_stat_file) (mkApp DMR (-4) 0 2)
              mesh250k (Some sample_config)) = Ok specs
       /\ thread_arg <$> specs = (fun n => Some (thread_token n)) <$> ns
       /\ Forall (fun n =>
            -4 <= n /\ (n <= 0 \/ (n = 1 /\ 0 = 0 /\ 2 <> 1))) ns.
Proof.
  split; [done|].
  apply (get_run_spec_thread_bounds (H := sample_stat_file)
           (mkApp DMR (-4) 0 2) mesh250k sample_config).
  done.
Defined.

Lemma get_run_spec_count_witness :
  0 < step (mkApp BFS (-2) 3 1)
  /\ exists specs,
       run (get_run_spec (H := sample_stat_file) (mkApp BFS (-2) 3 1)
              galaxy1 (Some sample_config)) = Ok specs
       /\ Z.of_nat (length specs)
          = (if decide (-2 <= 3) then (3 - -2) / 1 + 1 else 0)
            - (if decide (1 = 1 /\ -2 <= 0 <= 3) then 1 else 0).
Proof.
  split; [done|].
  apply (get_run_spec_count (H := sample_stat_file)
           (mkApp BFS (-2) 3 1) galaxy1 sample_config).
  done.
Defined.

Lemma get_run_spec_sweep_from_zero_witness :
  0 < step (mkApp BFS 0 8 4)
  /\ startThread (mkApp BFS 0 8 4) = 0
  /\ 0 <= endThread (mkApp BFS 0 8 4)
  /\ exists specs,
       run (get_run_spec (H := sample_stat_file) (mkApp BFS 0 8 4)
              galaxy1 (Some sample_config)) = Ok specs
       /\ thread_arg <$> specs
          = (fun n => Some (thread_token n)) <$> [1; 4; 8].
Proof.
  split_and!; [done..|].
  apply (get_run_spec_sweep_from_zero (H := sample_stat_file)
           (mkApp BFS 0 8 4) galaxy1 sample_config); done.
Defined.

Lemma get_run_spec_sweep_without_zero_witness :
  0 < step (mkApp BFS 1 8 2)
  /\ (0 < startThread (mkApp BFS 1 8 2) \/ endThread (mkApp BFS 1 8 2) < 0)
  /\ exists specs,
       run (get_run_spec (H := sample_stat_file) (mkApp BFS 1 8 2)
              galaxy1 (Some sample_config)) = Ok specs
       /\ thread_arg <$> specs
          = (fun n => Some (thread_token n)) <$> [1; 3; 5; 7].
Proof.
  assert (Hz : 0 < startThread (mkApp BFS 1 8 2)
               \/ endThread (mkApp BFS 1 8 2) < 0) by (by left).
  split; [done|]. split; [exact Hz|].
  apply (get_run_spec_sweep_without_zero (H := sample_stat_file)
           (mkApp BFS 1 8 2) galaxy1 sample_config); done.
Defined.

Lemma default_specs_descending_sweep_witness :
  step (mkApp BFS 4 1 (-1)) < 0
  /\ exists vs specs,
       StronglySorted (fun a b => b < a) vs
       /\ (forall v, v ∈ vs <-> 1 + 1 < v <= 4 /\ (-1 | v - 4))
       /\ run (get_default_run_specs (H := sample_stat_file)
                 (mkApp BFS 4 1 (-1)) galaxy1 (Some sample_config))
          = Ok specs
       /\ thread_arg <$> specs
          = (fun n => Some (thread_token n))
              <$> omap (fun v => if decide (v = 0) then Some 1 else Some v)
                    vs.
Proof.
  split; [done|].
  apply (default_specs_descending_sweep (H := sample_stat_file)
           (mkApp BFS 4 1 (-1)) galaxy1 sample_config).
  done.
Defined.

(** C2 fails as stated: the sweep is the closed range from [startThread]
    to [endThread] for a positive [step] only.  With [startThread = 4],
    [endThread = 1] and [step = -1] the code runs with 4 and 3 threads:
    4 is no value between [startThread] and [endThread], 2 and 1 get no
    run, and no list of the values of the closed range gives these thread
    flags.  With [step = 0] there is no sweep at all. *)
Lemma descending_sweep_outside_closed_range :
  match run (get_default_run_specs (H := sample_stat_file)
               (mkApp BFS 4 1 (-1)) galaxy1 (Some sample_config)) with
  | Ok specs => thread_arg <$> specs
  | Raise _ => []
  end
  = [Some ("-t=4"%string, AT_PLAIN); Some ("-t=3"%string, AT_PLAIN)]
  /\ ~ (exists vs specs,
          StronglySorted Z.lt vs
          /\ (forall v, v ∈ vs <-> 4 <= v <= 1 /\ (-1 | v - 4))
          /\ run (get_default_run_specs (H := sample_stat_file)
                    (mkApp BFS 4 1 (-1)) galaxy1 (Some sample_config))
             = Ok specs
          /\ thread_arg <$> specs
             = (fun n => Some (thread_token n))
                 <$> omap (fun v => if decide (v = 0)
                                    then (if decide (-1 = 1)
                                          then None else Some 1)
                                    else Some v) vs)
  /\ run (get_default_run_specs (H := sample_stat_file)
            (mkApp BFS 4 1 0) galaxy1 (Some sample_config))
     = Raise ValueError.
Proof.
  split_and!; [by vm_compute| |done].
  intros (vs & specs & _ & Hmem & Hrun & Hargs).
  destruct vs as [|v vs].
  - vm_compute in Hrun. injection Hrun as <-. discriminate Hargs.
  - destruct (proj1 (Hmem v)) as [? _]; [by left|lia].
Qed.
